(** * ts-comment-extractor: the annotation parser and the declaration locator

    A shallow embedding of [src/extractSignaturesv2.ts].

    - JavaScript strings are sequences of UTF-16 code units ([jsstring]).
    - [AnnotationParser.parse] is a loop over the physical lines of a comment
      that mutates two locals, [annotations] and [currentAnnotation]; it is
      embedded as a monadic fold over an explicit [ParseState].
    - Operations that can raise at run time live in the [result] monad.
    - The TypeScript compiler API (the syntax tree, [forEachChild],
      [getLineAndCharacterOfPosition], [getLeadingCommentRanges]) is not
      part of the repository: the tree is an inductive type and the two
      queries are the methods of the class [ts.Compiler].
    - The driver ([parseFunctionSignatures], [readFile],
      [createSourceFile]) runs against a [Host] class that stands for
      [fs.readFile], [Buffer.toString], [ts.createSourceFile] and the
      call stack of the engine; an awaited call either resolves or is
      rejected ([outcome]).
    - The earlier stand-alone script of the repository is the module [V1].
    - The command line ([main]) is outside the model. *)

From Stdlib Require Import List NArith Arith Bool Lia.
From Stdlib Require String Ascii.
Import ListNotations.
Import String.StringSyntax.
Open Scope string_scope.

(* ================================================================== *)
(** ** JavaScript strings *)
(* ================================================================== *)

(** A UTF-16 code unit. *)
Definition char := N.

Definition jsstring := list char.

(** ASCII literals; a Rocq string literal is a byte sequence, so this is
    meant for ASCII text only. *)
Definition js (s : String.string) : jsstring :=
  map Ascii.N_of_ascii (String.list_ascii_of_string s).

Definition LF : char := 10%N.
Definition SLASH : char := 47%N.
Definition STAR : char := 42%N.

(** ECMAScript [WhiteSpace] and [LineTerminator] code points: the set
    removed by [String.prototype.trim] and matched by [\s]. *)
Definition isWhiteSpace (c : char) : bool :=
  ((9 <=? c) && (c <=? 13)          (* TAB, LF, VT, FF, CR *)
   || (c =? 32) || (c =? 160)       (* SP, NBSP *)
   || (c =? 5760)                   (* U+1680 *)
   || ((8192 <=? c) && (c <=? 8202))(* U+2000 .. U+200A *)
   || (c =? 8232) || (c =? 8233)    (* LS, PS *)
   || (c =? 8239) || (c =? 8287)    (* U+202F, U+205F *)
   || (c =? 12288) || (c =? 65279)  (* U+3000, U+FEFF *)
  )%N.

Fixpoint dropWhile (p : char -> bool) (s : jsstring) : jsstring :=
  match s with
  | [] => []
  | c :: s' => if p c then dropWhile p s' else s
  end.

Definition dropWhileEnd (p : char -> bool) (s : jsstring) : jsstring :=
  rev (dropWhile p (rev s)).

(** [s.trim()] *)
Definition trim (s : jsstring) : jsstring :=
  dropWhileEnd isWhiteSpace (dropWhile isWhiteSpace s).

(** [s.split(sep)] for a one-character separator; the result always has
    at least one element ([''.split('\n')] is [['']]). *)
Fixpoint split (sep : char) (s : jsstring) : list jsstring :=
  match s with
  | [] => [[]]
  | c :: s' =>
      if (c =? sep)%N then [] :: split sep s'
      else match split sep s' with
           | l :: ls => (c :: l) :: ls
           | [] => [[c]]
           end
  end.

(** [s.startsWith(t)] *)
Fixpoint startsWith (s t : jsstring) : bool :=
  match t, s with
  | [], _ => true
  | _ :: _, [] => false
  | c :: t', d :: s' => (c =? d)%N && startsWith s' t'
  end.

(** [s.substring(start)] *)
Definition substringFrom (start : nat) (s : jsstring) : jsstring :=
  skipn start s.

(** [s.substring(a, b)]: the arguments are swapped when [a > b] and
    clamped to the length of [s]. *)
Definition substring (a b : nat) (s : jsstring) : jsstring :=
  let lo := Nat.min a b in
  let hi := Nat.max a b in
  firstn (hi - lo) (skipn lo s).

(** [parts.join(sep)] *)
Fixpoint join (sep : jsstring) (parts : list jsstring) : jsstring :=
  match parts with
  | [] => []
  | [p] => p
  | p :: ps => p ++ sep ++ join sep ps
  end.

Definition jsstring_eq_dec : forall s t : jsstring, {s = t} + {s <> t} :=
  list_eq_dec N.eq_dec.

(** Truthiness of a string: every string but [''] is truthy. *)
Definition truthy (s : jsstring) : bool :=
  match s with
  | [] => false
  | _ :: _ => true
  end.

(** [s.replace(/^[/*\s]+/, '')]: the pattern is anchored at the start and
    its class is greedy, so the match is the longest prefix made of
    ['/'], ['*'] and white space. *)
Definition isDecoration (c : char) : bool :=
  ((c =? SLASH) || (c =? STAR))%N || isWhiteSpace c.

Definition stripLeadingDecoration (s : jsstring) : jsstring :=
  dropWhile isDecoration s.

(** [s.replace(/\s*\*\/$/, '')]: the pattern matches only when [s] ends
    in ["*/"]; the leftmost match then starts at the beginning of the
    run of white space that precedes the closer. *)
Definition stripBlockCloser (s : jsstring) : jsstring :=
  match rev s with
  | c1 :: c2 :: r =>
      if ((c1 =? SLASH) && (c2 =? STAR))%N
      then rev (dropWhile isWhiteSpace r)
      else s
  | _ => s
  end.

(* ================================================================== *)
(** ** Run-time errors *)
(* ================================================================== *)

Inductive JsError : Type :=
| TypeError.

Inductive result (A : Type) : Type :=
| Ok (a : A)
| Throw (e : JsError).

Arguments Ok {A} a.
Arguments Throw {A} e.

Definition bind {A B : Type} (m : result A) (k : A -> result B) : result B :=
  match m with
  | Ok a => k a
  | Throw e => Throw e
  end.

Notation "x <- m ;; k" := (bind m (fun x => k))
  (at level 61, m at next level, right associativity).

(** A [for ... of] loop whose body may raise. *)
Section ForOf.

Context {S A : Type} (body : S -> A -> result S).

Fixpoint forOf (xs : list A) (st : S) : result S :=
  match xs with
  | [] => Ok st
  | x :: xs' => st' <- body st x ;; forOf xs' st'
  end.

End ForOf.

(* ================================================================== *)
(** ** Data model *)
(* ================================================================== *)

Record AnnotationMetadata : Type := {
  type : jsstring;
  content : jsstring;
  isMultiLine : bool
}.

Record Location : Type := {
  line : nat;
  column : nat
}.

Record FunctionMetadata : Type := {
  name : jsstring;
  annotations : list AnnotationMetadata;
  location : Location
}.

(** A property of an object literal typed by [Partial<...>]: the key can
    be missing, present with value [undefined], or present with a value. *)
Inductive prop (A : Type) : Type :=
| Absent
| Undefined
| Present (a : A).

Arguments Absent {A}.
Arguments Undefined {A}.
Arguments Present {A} a.

(** [Partial<AnnotationConfig>] *)
Module PartialConfig.
Record t : Type := {
  supportedAnnotations : prop (list jsstring);
  multiLineSupport : prop bool;
  encoding : prop jsstring
}.
End PartialConfig.

(** [AnnotationConfig]; [encoding] is optional. *)
Record AnnotationConfig : Type := {
  supportedAnnotations : list jsstring;
  multiLineSupport : bool;
  encoding : option jsstring
}.

(** [Partial<AnnotationMetadata>]: what [currentAnnotation] points to. *)
Module PartialAnnotation.
Record t : Type := {
  type : option jsstring;
  content : option jsstring;
  isMultiLine : option bool
}.
End PartialAnnotation.

(* ================================================================== *)
(** ** AnnotationParser *)
(* ================================================================== *)

Module AnnotationParser.

(** The constructor: [supportedAnnotations || []],
    [multiLineSupport ?? true], [encoding] copied. *)
Definition new (config : PartialConfig.t) : AnnotationConfig :=
  {| supportedAnnotations :=
       match PartialConfig.supportedAnnotations config with
       | Present tags => tags
       | _ => []
       end;
     multiLineSupport :=
       match PartialConfig.multiLineSupport config with
       | Present b => b
       | _ => true
       end;
     encoding :=
       match PartialConfig.encoding config with
       | Present e => Some e
       | _ => None
       end |}.

(** [supportedAnnotations.find(a => line.startsWith(a)) || null]:
    the first configured tag that is a prefix of the line; a match on
    the empty string is falsy and becomes [null]. *)
Definition findAnnotationType (config : AnnotationConfig) (line : jsstring)
  : option jsstring :=
  match find (fun annotation => startsWith line annotation)
             (supportedAnnotations config) with
  | Some annotation => if truthy annotation then Some annotation else None
  | None => None
  end.

(** [x!]: the value is used at its declared type. An [undefined] there
    would reach [.trim()] (a [TypeError]) or an ill-typed record, so
    the model treats it as a raised error. *)
Definition nonNull {A : Type} (x : option A) : result A :=
  match x with
  | Some a => Ok a
  | None => Throw TypeError
  end.

Definition finalizeAnnotation (annotation : PartialAnnotation.t)
  : result AnnotationMetadata :=
  ty <- nonNull (PartialAnnotation.type annotation) ;;
  c <- nonNull (PartialAnnotation.content annotation) ;;
  Ok {| type := ty;
        content := trim c;
        isMultiLine :=
          match PartialAnnotation.isMultiLine annotation with
          | Some b => b
          | None => false
          end |}.

(** The two locals of [parse] that the loop mutates. *)
Record ParseState : Type := {
  emitted : list AnnotationMetadata;          (* [annotations] *)
  currentAnnotation : option PartialAnnotation.t
}.

Definition initialState : ParseState :=
  {| emitted := []; currentAnnotation := None |}.

Definition truthyOpt (s : option jsstring) : bool :=
  match s with
  | Some s' => truthy s'
  | None => false
  end.

(** [if (currentAnnotation?.type && currentAnnotation.content)
       annotations.push(this.finalizeAnnotation(currentAnnotation))] *)
Definition pushCurrent (st : ParseState) : result (list AnnotationMetadata) :=
  match currentAnnotation st with
  | Some cur =>
      if truthyOpt (PartialAnnotation.type cur)
         && truthyOpt (PartialAnnotation.content cur)
      then a <- finalizeAnnotation cur ;; Ok (emitted st ++ [a])
      else Ok (emitted st)
  | None => Ok (emitted st)
  end.

(** The cleaning step at the head of the loop body. *)
Definition cleanLine (line : jsstring) : jsstring :=
  stripBlockCloser (stripLeadingDecoration (trim line)).

(** String concatenation whose left operand may be [undefined]. *)
Definition toStringOpt (s : option jsstring) : jsstring :=
  match s with
  | Some s' => s'
  | None => js "undefined"
  end.

(** The loop body. *)
Definition parseLine (config : AnnotationConfig) (st : ParseState)
           (line : jsstring) : result ParseState :=
  let trimmedLine := cleanLine line in
  match findAnnotationType config trimmedLine with
  | Some annotationType =>
      anns <- pushCurrent st ;;
      Ok {| emitted := anns;
            currentAnnotation :=
              Some {| PartialAnnotation.type := Some annotationType;
                      PartialAnnotation.content :=
                        Some (trim (substringFrom (length annotationType)
                                                  trimmedLine));
                      PartialAnnotation.isMultiLine := Some false |} |}
  | None =>
      match currentAnnotation st with
      | Some cur =>
          if multiLineSupport config
          then Ok {| emitted := emitted st;
                     currentAnnotation :=
                       Some {| PartialAnnotation.type :=
                                 PartialAnnotation.type cur;
                               PartialAnnotation.content :=
                                 Some (toStringOpt (PartialAnnotation.content cur)
                                       ++ LF :: trimmedLine);
                               PartialAnnotation.isMultiLine := Some true |} |}
          else Ok st
      | None => Ok st
      end
  end.

Definition parse (config : AnnotationConfig) (comments : jsstring)
  : result (list AnnotationMetadata) :=
  st <- forOf (parseLine config) (split LF comments) initialState ;;
  pushCurrent st.

End AnnotationParser.

(* ================================================================== *)
(** ** The TypeScript compiler API, as far as the locator uses it *)
(* ================================================================== *)

Module ts.

#[local] Set Warnings "-register-all".

Inductive SyntaxKind : Type :=
| FunctionDeclaration
| OtherKind.

(** The name token of a declaration: [name.getStart()], [name.getText()]. *)
Record Identifier : Type := {
  identStart : nat;
  getText : jsstring
}.

(** A syntax node: its kind, the offset where its leading trivia starts,
    the offset of its first token, its [name] property, and its children
    in the order [forEachChild] hands them to the callback. *)
Inductive Node : Type :=
  mkNode {
    kind : SyntaxKind;
    getFullStart : nat;
    getStart : nat;
    name : option Identifier;
    children : list Node
  }.

Definition isFunctionDeclaration (node : Node) : bool :=
  match kind node with
  | FunctionDeclaration => true
  | OtherKind => false
  end.

Record CommentRange : Type := {
  pos : nat;
  end_ : nat
}.

(** Zero-based line and character. *)
Record LineAndCharacter : Type := {
  line : nat;
  character : nat
}.

(** [forEachChild(node, cbNode)] for a callback that returns nothing
    (so the iteration never stops early) and that updates a state. *)
Definition forEachChild {S : Type} (node : Node)
           (cbNode : Node -> S -> result S) (st : S) : result S :=
  forOf (fun st' child => cbNode child st') (children node) st.

(** A source file is the root node of its tree, together with its text. *)
Record SourceFile : Type := {
  getFullText : jsstring;
  root : Node
}.

(** The two queries the locator sends to the compiler.
    [getLeadingCommentRanges] answers [undefined] ([None]) when no
    comment precedes the position. *)
Class Compiler : Type := {
  getLineAndCharacterOfPosition : SourceFile -> nat -> LineAndCharacter;
  getLeadingCommentRanges : jsstring -> nat -> option (list CommentRange)
}.

End ts.

(* ================================================================== *)
(** ** TypeScriptParser *)
(* ================================================================== *)

Module TypeScriptParser.

Definition defaultConfig : AnnotationConfig :=
  {| supportedAnnotations := [js "@param"; js "@returns"; js "@throws"];
     multiLineSupport := true;
     encoding := Some (js "utf-8") |}.

(** [{ ...a, ...b }] on one property: [b]'s key wins whenever it is
    present, also with value [undefined]. *)
Definition spread {A : Type} (a : A) (b : prop A) : prop A :=
  match b with
  | Absent => Present a
  | _ => b
  end.

(** The constructor; the parser object is its merged [config]. *)
Definition new (config : PartialConfig.t) : PartialConfig.t :=
  {| PartialConfig.supportedAnnotations :=
       spread (supportedAnnotations defaultConfig)
              (PartialConfig.supportedAnnotations config);
     PartialConfig.multiLineSupport :=
       spread (multiLineSupport defaultConfig)
              (PartialConfig.multiLineSupport config);
     PartialConfig.encoding :=
       match encoding defaultConfig with
       | Some e => spread e (PartialConfig.encoding config)
       | None => PartialConfig.encoding config
       end |}.

Section WithCompiler.

Context {compiler : ts.Compiler}.

Variable this : PartialConfig.t.

Definition getLeadingComments (text : jsstring) (pos : nat) : jsstring :=
  match ts.getLeadingCommentRanges text pos with
  | None => []
  | Some comments =>
      join [LF]
           (map (fun comment => substring (ts.pos comment) (ts.end_ comment) text)
                comments)
  end.

Definition parseAnnotations (comments : jsstring)
  : result (list AnnotationMetadata) :=
  if truthy comments
  then AnnotationParser.parse (AnnotationParser.new this) comments
  else Ok [].

Definition processFunctionDeclaration (node : ts.Node) (sourceFile : ts.SourceFile)
  : result (option FunctionMetadata) :=
  match ts.name node with
  | None => Ok None
  | Some nodeName =>
      let lc := ts.getLineAndCharacterOfPosition sourceFile (ts.getStart node) in
      let comments :=
        getLeadingComments (ts.getFullText sourceFile) (ts.getFullStart node) in
      anns <- parseAnnotations comments ;;
      Ok (Some {| name := ts.getText nodeName;
                  annotations := anns;
                  location := {| line := ts.line lc + 1;
                                 column := ts.character lc + 1 |} |})
  end.

(** The closure [visit] of [extractFunctions]; the array [functions] it
    pushes to is threaded through. *)
Fixpoint visit (sourceFile : ts.SourceFile) (node : ts.Node)
         (functions : list FunctionMetadata) : result (list FunctionMetadata) :=
  functions1 <-
    (if ts.isFunctionDeclaration node
     then match ts.name node with
          | Some _ =>
              functionData <- processFunctionDeclaration node sourceFile ;;
              match functionData with
              | Some d => Ok (functions ++ [d])
              | None => Ok functions
              end
          | None => Ok functions
          end
     else Ok functions) ;;
  ts.forEachChild node (visit sourceFile) functions1.

Definition extractFunctions (sourceFile : ts.SourceFile)
  : result (list FunctionMetadata) :=
  visit sourceFile (ts.root sourceFile) [].

End WithCompiler.

End TypeScriptParser.

Import AnnotationParser.

Definition testConfig : AnnotationConfig :=
  AnnotationParser.new
    {| PartialConfig.supportedAnnotations :=
         Present [js "@param"; js "@returns"; js "@throws"; js "@description"];
       PartialConfig.multiLineSupport := Present true;
       PartialConfig.encoding := Absent |}.

Definition defaultParserConfig : AnnotationConfig :=
  AnnotationParser.new (TypeScriptParser.new
    {| PartialConfig.supportedAnnotations := Absent;
       PartialConfig.multiLineSupport := Absent;
       PartialConfig.encoding := Absent |}).

(* ================================================================== *)
(** ** Specification-side notions *)
(* ================================================================== *)

(** Depth-first traversal, each parent before its children, siblings
    left to right. *)
Fixpoint preorder (node : ts.Node) : list ts.Node :=
  match node with
  | ts.mkNode _ _ _ _ nodes => node :: flat_map preorder nodes
  end.

Definition isNamedFunctionDeclaration (node : ts.Node) : bool :=
  ts.isFunctionDeclaration node
  && match ts.name node with Some _ => true | None => false end.

(** The named function declarations of a file, in document order. *)
Definition documentOrder (sourceFile : ts.SourceFile) : list ts.Node :=
  filter isNamedFunctionDeclaration (preorder (ts.root sourceFile)).

(** One-based line and column of an offset. *)
Definition oneBased (lc : ts.LineAndCharacter) : Location :=
  {| line := ts.line lc + 1; column := ts.character lc + 1 |}.

Section LocatorNotions.

Context {compiler : ts.Compiler}.

Variable this : PartialConfig.t.
Variable sourceFile : ts.SourceFile.

(** A declaration and the record the locator builds for it. *)
Definition located (node : ts.Node) (fm : FunctionMetadata) : Prop :=
  TypeScriptParser.processFunctionDeclaration this node sourceFile
  = Ok (Some fm).

(** What [visit] does at the node itself, before it descends. *)
Definition visitHere (node : ts.Node) (functions : list FunctionMetadata)
  : result (list FunctionMetadata) :=
  if ts.isFunctionDeclaration node
  then match ts.name node with
       | Some _ =>
           functionData <-
             TypeScriptParser.processFunctionDeclaration this node sourceFile ;;
           match functionData with
           | Some d => Ok (functions ++ [d])
           | None => Ok functions
           end
       | None => Ok functions
       end
  else Ok functions.

End LocatorNotions.

(** The annotation a tag line denotes on its own: the matched tag and the
    trimmed remainder of the cleaned line, when that remainder is not
    empty. *)
Definition tagLineAnnotation (config : AnnotationConfig) (line : jsstring)
  : option AnnotationMetadata :=
  match findAnnotationType config (cleanLine line) with
  | Some tag =>
      let body := trim (substringFrom (length tag) (cleanLine line)) in
      if truthy body
      then Some {| type := tag; content := body; isMultiLine := false |}
      else None
  | None => None
  end.

Definition optionToList {A : Type} (x : option A) : list A :=
  match x with
  | Some a => [a]
  | None => []
  end.

(** [s] contains [a] and, later, [b]. *)
Definition containsInOrder (s a b : jsstring) : Prop :=
  exists u v w, s = u ++ a ++ v ++ b ++ w.

(** A loop state as the loop itself builds it: an open annotation has a
    non-empty tag, a content and a flag. *)
Definition wellFormed (st : ParseState) : Prop :=
  match currentAnnotation st with
  | None => True
  | Some cur =>
      exists tag body flag,
        cur = {| PartialAnnotation.type := Some tag;
                 PartialAnnotation.content := Some body;
                 PartialAnnotation.isMultiLine := Some flag |}
        /\ truthy tag = true
  end.

(** The state of an open annotation that no continuation line has
    touched: its content is already trimmed and its flag is off. *)
Definition untouched (st : ParseState) : Prop :=
  match currentAnnotation st with
  | None => True
  | Some cur =>
      exists tag rest,
        cur = {| PartialAnnotation.type := Some tag;
                 PartialAnnotation.content := Some (trim rest);
                 PartialAnnotation.isMultiLine := Some false |}
        /\ truthy tag = true
  end.

(** What the open annotation of an [untouched] state will contribute. *)
Definition pending (st : ParseState) : list AnnotationMetadata :=
  match currentAnnotation st with
  | Some cur =>
      match PartialAnnotation.type cur, PartialAnnotation.content cur with
      | Some tag, Some body =>
          if truthy body
          then [ {| type := tag; content := body; isMultiLine := false |} ]
          else []
      | _, _ => []
      end
  | None => []
  end.

(** Two configured tags, one a prefix of the other. *)
Definition overlappingConfig : AnnotationConfig :=
  {| supportedAnnotations := [js "@param"; js "@paramType"];
     multiLineSupport := true;
     encoding := None |}.

Definition scenarioConfig : AnnotationConfig :=
  {| supportedAnnotations := [js "@param"; js "@returns"];
     multiLineSupport := true;
     encoding := None |}.

Definition singleLineConfig : AnnotationConfig :=
  {| supportedAnnotations := [js "@param"; js "@returns"];
     multiLineSupport := false;
     encoding := None |}.

Definition blockComment : jsstring :=
  js "/**" ++ LF ::
  js " * @param a first" ++ LF ::
  js " *   second line" ++ LF ::
  js " * @returns" ++ LF ::
  js " */".

Definition continuationComment : jsstring :=
  js "@description" ++ LF :: js "line1" ++ LF :: js "line2".

(** ["@description"] is supported, behind a tag that is a prefix of it. *)
Definition shadowingConfig : AnnotationConfig :=
  {| supportedAnnotations := [js "@desc"; js "@description"];
     multiLineSupport := true;
     encoding := None |}.

(* ================================================================== *)
(** ** A sample source file *)
(* ================================================================== *)

(** Reference behaviour of [getLineAndCharacterOfPosition]: lines end at
    LF, CR LF, a lone CR, U+2028 and U+2029. *)
Definition isLineBreak (c : char) : bool :=
  ((c =? 10) || (c =? 13) || (c =? 8232) || (c =? 8233))%N.

Fixpoint lineAndCharacterFrom (text : jsstring) (position ln ch : nat)
  : ts.LineAndCharacter :=
  match position, text with
  | S position', c :: rest =>
      let crlf :=
        match rest with
        | d :: _ => ((c =? 13) && (d =? 10))%N
        | [] => false
        end in
      if isLineBreak c && negb crlf
      then lineAndCharacterFrom rest position' (S ln) 0
      else lineAndCharacterFrom rest position' ln (S ch)
  | _, _ => {| ts.line := ln; ts.character := ch |}
  end.

(** Four declarations; the first one is documented, the third one is
    nested in the second:
<<
/** @param a x */
function f(a) {}
function g() { function h() {} }
function k() {}
>> *)
Definition sampleText : jsstring :=
  js "/** @param a x */" ++ LF ::
  js "function f(a) {}" ++ LF ::
  js "function g() { function h() {} }" ++ LF ::
  js "function k() {}".

Definition leaf (fullStart start : nat) : ts.Node :=
  ts.mkNode ts.OtherKind fullStart start None [].

Definition declF : ts.Node :=
  ts.mkNode ts.FunctionDeclaration 0 18
    (Some {| ts.identStart := 27; ts.getText := js "f" |})
    [leaf 26 27; ts.mkNode ts.OtherKind 29 29 None [leaf 29 29]; leaf 31 32].

Definition declH : ts.Node :=
  ts.mkNode ts.FunctionDeclaration 49 50
    (Some {| ts.identStart := 59; ts.getText := js "h" |})
    [leaf 58 59; leaf 62 63].

Definition declG : ts.Node :=
  ts.mkNode ts.FunctionDeclaration 34 35
    (Some {| ts.identStart := 44; ts.getText := js "g" |})
    [leaf 43 44; ts.mkNode ts.OtherKind 47 48 None [declH]].

Definition declK : ts.Node :=
  ts.mkNode ts.FunctionDeclaration 67 68
    (Some {| ts.identStart := 77; ts.getText := js "k" |})
    [leaf 76 77; leaf 80 81].

Definition sampleFile : ts.SourceFile :=
  {| ts.getFullText := sampleText;
     ts.root := ts.mkNode ts.OtherKind 0 18 None
                  [declF; declG; declK; leaf 83 83] |}.

(** The compiler's answers on [sampleText]: the only comment is the one
    at offsets 0 to 17, leading the first declaration. *)
Definition sampleCompiler : ts.Compiler :=
  {| ts.getLineAndCharacterOfPosition :=
       fun sourceFile position =>
         lineAndCharacterFrom (ts.getFullText sourceFile) position 0 0;
     ts.getLeadingCommentRanges :=
       fun _ position =>
         if Nat.eqb position 0
         then Some [ {| ts.pos := 0; ts.end_ := 17 |} ]
         else None |}.

Definition sampleParser : PartialConfig.t :=
  TypeScriptParser.new
    {| PartialConfig.supportedAnnotations := Absent;
       PartialConfig.multiLineSupport := Absent;
       PartialConfig.encoding := Absent |}.

(* ================================================================== *)
(** ** Notions for the properties of the annotation parser *)
(* ================================================================== *)

(** A line on which [parse] opens an annotation. *)
Definition isTagLine (config : AnnotationConfig) (line : jsstring) : bool :=
  match findAnnotationType config (cleanLine line) with
  | Some _ => true
  | None => false
  end.

(** An annotation whose tag is a configured, non-empty tag. *)
Definition configuredTag (config : AnnotationConfig) (a : AnnotationMetadata)
  : Prop :=
  In (type a) (supportedAnnotations config) /\ type a <> [].

(** A string that neither starts nor ends with white space. *)
Definition trimmed (s : jsstring) : Prop :=
  (forall c rest, s = c :: rest -> isWhiteSpace c = false)
  /\ (forall front c, s = front ++ [c] -> isWhiteSpace c = false).

(** The loop state with [more] put in front of what has been pushed. *)
Definition prepend (more : list AnnotationMetadata) (st : ParseState)
  : ParseState :=
  {| emitted := more ++ emitted st;
     currentAnnotation := currentAnnotation st |}.

(** What a tag line and the non-tag lines after it amount to when
    continuation is on: the content is the tag line's trimmed remainder
    followed by each continuation line behind a line break; nothing is
    emitted when that content is empty. *)
Definition blockAnnotation (config : AnnotationConfig) (tagLine : jsstring)
           (continuation : list jsstring) : list AnnotationMetadata :=
  match findAnnotationType config (cleanLine tagLine) with
  | Some tag =>
      let body :=
        trim (substringFrom (length tag) (cleanLine tagLine))
        ++ flat_map (fun l => LF :: cleanLine l) continuation in
      if truthy body
      then [ {| type := tag;
                content := trim body;
                isMultiLine := match continuation with
                               | [] => false
                               | _ :: _ => true
                               end |} ]
      else []
  | None => []
  end.

Definition withTags (config : AnnotationConfig) (tags : list jsstring)
  : AnnotationConfig :=
  {| supportedAnnotations := tags;
     multiLineSupport := multiLineSupport config;
     encoding := encoding config |}.

(** What holds of the loop state throughout: the annotations pushed so
    far carry a configured tag and a trimmed content, and so does the
    tag of the open one. *)
Definition soundState (config : AnnotationConfig) (st : ParseState) : Prop :=
  Forall (fun a => configuredTag config a /\ trimmed (content a)) (emitted st)
  /\ (forall cur tag,
         currentAnnotation st = Some cur ->
         PartialAnnotation.type cur = Some tag ->
         In tag (supportedAnnotations config)).

(** The number of annotations a state accounts for. *)
Definition accounted (st : ParseState) : nat :=
  length (emitted st)
  + match currentAnnotation st with
    | Some _ => 1
    | None => 0
    end.

(** Text that does not start with a character the cleaning step strips
    from the front, and does not end with white space. *)
Definition plainText (s : jsstring) : Prop :=
  (forall c rest, s = c :: rest -> isDecoration c = false)
  /\ (forall front c, s = front ++ [c] -> isWhiteSpace c = false).

Definition allOf (p : char -> bool) (s : jsstring) : Prop :=
  Forall (fun c => p c = true) s.

(** A parser object whose caller passed [undefined] for the tags. *)
Definition undefinedTagsParser : PartialConfig.t :=
  TypeScriptParser.new
    {| PartialConfig.supportedAnnotations := Undefined;
       PartialConfig.multiLineSupport := Absent;
       PartialConfig.encoding := Absent |}.

Ltac ends_with_LF :=
  let E := fresh "E" in
  intros E; repeat (apply app_eq_nil in E; destruct E as [_ E]); discriminate E.

(** The lines of a comment, grouped: the lines before the first tag
    line, then each tag line with the lines that follow it up to the
    next tag line. *)
Fixpoint group (config : AnnotationConfig) (lines : list jsstring)
  : list jsstring * list (jsstring * list jsstring) :=
  match lines with
  | [] => ([], [])
  | l :: rest =>
      let (continuation, later) := group config rest in
      if isTagLine config l
      then ([], (l, continuation) :: later)
      else (l :: continuation, later)
  end.

Definition blocks (config : AnnotationConfig) (lines : list jsstring)
  : list (jsstring * list jsstring) :=
  snd (group config lines).

(** What the open annotation gives once the lines [continuation] have
    been appended to it and it is closed. *)
Definition closing (cur : option PartialAnnotation.t)
           (continuation : list jsstring) : list AnnotationMetadata :=
  match cur with
  | Some cur' =>
      match PartialAnnotation.type cur', PartialAnnotation.content cur',
            PartialAnnotation.isMultiLine cur' with
      | Some tag, Some body, Some flag =>
          let full := body ++ flat_map (fun l => LF :: cleanLine l) continuation in
          if truthy tag && truthy full
          then [ {| type := tag;
                    content := trim full;
                    isMultiLine := match continuation with
                                   | [] => flag
                                   | _ :: _ => true
                                   end |} ]
          else []
      | _, _, _ => []
      end
  | None => []
  end.

(* ================================================================== *)
(** ** The driver: reading the file and building the tree *)
(* ================================================================== *)

#[local] Set Warnings "-register-all".

(** Objects that are [instanceof Error]. [ParserError] is the class of
    the repository: a message, an optional cause, and the name
    ['ParserError']. [CallStackExceeded] is the [RangeError] of an engine
    whose call stack is exhausted. *)
Inductive ErrorValue : Type :=
| RuntimeError (e : JsError)
| HostError (description : jsstring)
| CallStackExceeded
| ParserError (message : jsstring) (cause : option ErrorValue).

Definition errorName (e : ErrorValue) : jsstring :=
  match e with
  | RuntimeError TypeError => js "TypeError"
  | HostError _ => js "Error"
  | CallStackExceeded => js "RangeError"
  | ParserError _ _ => js "ParserError"
  end.

(** Anything can be thrown, an [Error] object or not. *)
Inductive Thrown : Type :=
| ErrorInstance (e : ErrorValue)
| OtherValue.

(** How an [async] method ends once awaited. *)
Inductive outcome (A : Type) : Type :=
| Resolved (a : A)
| Rejected (t : Thrown).

Arguments Resolved {A} a.
Arguments Rejected {A} t.

Definition andThen {A B : Type} (m : outcome A) (k : A -> outcome B)
  : outcome B :=
  match m with
  | Resolved a => k a
  | Rejected t => Rejected t
  end.

Definition ofResult {A : Type} (r : result A) : outcome A :=
  match r with
  | Ok a => Resolved a
  | Throw e => Rejected (ErrorInstance (RuntimeError e))
  end.

(** [error instanceof Error ? error : undefined] *)
Definition instanceofError (t : Thrown) : option ErrorValue :=
  match t with
  | ErrorInstance e => Some e
  | OtherValue => None
  end.

(** [try { body } catch (error) { throw new ParserError(message, ...) }] *)
Definition rethrowAsParserError {A : Type} (message : jsstring)
           (body : outcome A) : outcome A :=
  match body with
  | Resolved a => Resolved a
  | Rejected t =>
      Rejected (ErrorInstance (ParserError message (instanceofError t)))
  end.

(** The host: [promisify(fs.readFile)(filePath)], [buffer.toString(encoding)]
    and [ts.createSourceFile(filePath, content, ES2015, true)]; and the
    engine, whose call stack holds the recursion of [visit] over the tree
    of a source file, or does not ([visit] calls itself once per level of
    the tree, and a tree that is deep enough exhausts the stack). *)
Class Host : Type := {
  Buffer : Type;
  readFileAsync : jsstring -> outcome Buffer;
  bufferToString : Buffer -> option jsstring -> outcome jsstring;
  tsCreateSourceFile : jsstring -> jsstring -> outcome ts.SourceFile;
  callStackHolds : ts.SourceFile -> bool
}.

(** The message of [readFile], a fixed Japanese text followed by the path. *)
Definition readFailedMessage (filePath : jsstring) : jsstring :=
  [12501; 12449; 12452; 12523; 12398; 35501; 12415; 36796; 12415; 12395;
   22833; 25943; 12375; 12414; 12375; 12383; 58; 32]%N
  ++ filePath.

(** The message of [parseFunctionSignatures], the path between two fixed
    Japanese texts. *)
Definition parseFailedMessage (filePath : jsstring) : jsstring :=
  [12501; 12449; 12452; 12523; 32]%N
  ++ filePath
  ++ [32; 12398; 38306; 25968; 12471; 12464; 12493; 12481; 12515; 12398;
      35299; 26512; 12395; 22833; 25943; 12375; 12414; 12375; 12383]%N.

Section Driver.

Context {compiler : ts.Compiler} {host : Host}.

Variable this : PartialConfig.t.

(** [this.config.encoding] *)
Definition configuredEncoding : option jsstring :=
  match PartialConfig.encoding this with
  | Present e => Some e
  | _ => None
  end.

Definition readFile (filePath : jsstring) : outcome jsstring :=
  rethrowAsParserError (readFailedMessage filePath)
    (andThen (readFileAsync filePath)
             (fun buffer => bufferToString buffer configuredEncoding)).

Definition createSourceFile (filePath content : jsstring)
  : outcome ts.SourceFile :=
  tsCreateSourceFile filePath content.

(** The call [this.extractFunctions(sourceFile)] as the engine runs it:
    the recursion either fits the call stack, and the call ends as
    [extractFunctions] does, or it does not, and a [RangeError] is
    thrown out of it. *)
Definition callExtractFunctions (sourceFile : ts.SourceFile)
  : outcome (list FunctionMetadata) :=
  if callStackHolds sourceFile
  then ofResult (TypeScriptParser.extractFunctions this sourceFile)
  else Rejected (ErrorInstance CallStackExceeded).

Definition parseFunctionSignatures (filePath : jsstring)
  : outcome (list FunctionMetadata) :=
  rethrowAsParserError (parseFailedMessage filePath)
    (andThen (readFile filePath) (fun fileContent =>
     andThen (createSourceFile filePath fileContent) (fun sourceFile =>
     callExtractFunctions sourceFile))).

End Driver.

(** A host with one file, ["sample.ts"], holding [sampleText]. *)
Definition sampleHost : Host :=
  {| Buffer := jsstring;
     readFileAsync :=
       fun filePath =>
         if jsstring_eq_dec filePath (js "sample.ts")
         then Resolved sampleText
         else Rejected (ErrorInstance (HostError (js "ENOENT")));
     bufferToString := fun buffer _ => Resolved buffer;
     tsCreateSourceFile := fun _ _ => Resolved sampleFile;
     callStackHolds := fun _ => true |}.

(** The same file on an engine whose call stack is too small for the
    tree of the sample file. *)
Definition smallStackHost : Host :=
  {| Buffer := jsstring;
     readFileAsync := fun _ => Resolved sampleText;
     bufferToString := fun buffer _ => Resolved buffer;
     tsCreateSourceFile := fun _ _ => Resolved sampleFile;
     callStackHolds := fun _ => false |}.

(** Two line comments in front of a declaration:
<<
// @param a x
// more
function f(a) {}
>> *)
Definition lineCommentsText : jsstring :=
  js "// @param a x" ++ LF :: js "// more" ++ LF :: js "function f(a) {}".

Definition lineCommentsFile : ts.SourceFile :=
  {| ts.getFullText := lineCommentsText;
     ts.root :=
       ts.mkNode ts.OtherKind 0 22 None
         [ ts.mkNode ts.FunctionDeclaration 0 22
             (Some {| ts.identStart := 31; ts.getText := js "f" |})
             [leaf 30 31; ts.mkNode ts.OtherKind 33 33 None [leaf 33 33];
              leaf 35 36];
           leaf 38 38 ] |}.

Definition lineCommentsCompiler : ts.Compiler :=
  {| ts.getLineAndCharacterOfPosition :=
       fun sourceFile position =>
         lineAndCharacterFrom (ts.getFullText sourceFile) position 0 0;
     ts.getLeadingCommentRanges :=
       fun _ position =>
         if Nat.eqb position 0
         then Some [ {| ts.pos := 0; ts.end_ := 13 |};
                     {| ts.pos := 14; ts.end_ := 21 |} ]
         else None |}.

(* ================================================================== *)
(** ** The earlier stand-alone script ([src/unnamed/part_001]) *)
(* ================================================================== *)

Module V1.

(** [s.includes(t)] *)
Fixpoint includes (s t : jsstring) : bool :=
  startsWith s t
  || match s with
     | [] => false
     | _ :: s' => includes s' t
     end.

(** The three locals of [extractAnnotations]. *)
Record CaptureState : Type := {
  result : list jsstring;
  capture : bool;
  currentAnnotation : jsstring
}.

Definition initialState : CaptureState :=
  {| result := []; capture := false; currentAnnotation := [] |}.

(** The loop body of [extractAnnotations]. *)
Definition extractLine (annotations : list jsstring) (st : CaptureState)
           (line : jsstring) : CaptureState :=
  let st1 :=
    if existsb (fun annotation => includes line annotation) annotations
    then if capture st
         then {| result := result st ++ [currentAnnotation st];
                 capture := true;
                 currentAnnotation := [] |}
         else {| result := result st;
                 capture := true;
                 currentAnnotation := currentAnnotation st |}
    else st in
  if capture st1
  then {| result := result st1;
          capture := capture st1;
          currentAnnotation := currentAnnotation st1 ++ trim line ++ [LF] |}
  else st1.

Definition extractAnnotations (comments : jsstring) (annotations : list jsstring)
  : jsstring :=
  let st := fold_left (extractLine annotations) (split LF comments) initialState in
  join [LF]
       (if capture st && truthy (currentAnnotation st)
        then result st ++ [currentAnnotation st]
        else result st).

Section WithCompiler.

Context {compiler : ts.Compiler}.

(** Here the function answers [undefined] when there is no comment. *)
Definition getLeadingComments (text : jsstring) (pos : nat) : option jsstring :=
  match ts.getLeadingCommentRanges text pos with
  | Some comments =>
      Some (join [LF]
                 (map (fun comment =>
                         substring (ts.pos comment) (ts.end_ comment) text)
                      comments))
  | None => None
  end.

(** [visit]; the messages passed to [console.log] are collected in
    order. *)
Fixpoint visit (sourceFile : ts.SourceFile) (node : ts.Node)
         (console : list jsstring) : list jsstring :=
  let console1 :=
    if ts.isFunctionDeclaration node
    then match ts.name node with
         | Some nodeName =>
             let functionName := ts.getText nodeName in
             let comments :=
               getLeadingComments (ts.getFullText sourceFile)
                                  (ts.getFullStart node) in
             let logged := console ++ [js "Function: " ++ functionName] in
             let logged :=
               match comments with
               | Some c =>
                   if truthy c
                   then logged
                        ++ [js "Annotations:" ++ LF ::
                            extractAnnotations c [js "@param"; js "@returns"]]
                   else logged ++ [js "Annotations: No annotations found."]
               | None => logged ++ [js "Annotations: No annotations found."]
               end in
             logged ++ [js "---"]
         | None => console
         end
    else console in
  fold_left (fun logged child => visit sourceFile child logged)
            (ts.children node) console1.

(** [extractFunctionSignatures], from the tree on. *)
Definition extractFunctionSignatures (sourceFile : ts.SourceFile)
  : list jsstring :=
  visit sourceFile (ts.root sourceFile) [].

(** The three messages the script prints for a named function
    declaration. *)
Definition report (sourceFile : ts.SourceFile) (node : ts.Node)
  : list jsstring :=
  match ts.name node with
  | Some nodeName =>
      [ js "Function: " ++ ts.getText nodeName;
        match getLeadingComments (ts.getFullText sourceFile)
                                 (ts.getFullStart node) with
        | Some c =>
            if truthy c
            then js "Annotations:" ++ LF ::
                 extractAnnotations c [js "@param"; js "@returns"]
            else js "Annotations: No annotations found."
        | None => js "Annotations: No annotations found."
        end;
        js "---" ]
  | None => []
  end.

End WithCompiler.

(** A line that holds one of the tags somewhere. *)
Definition mentions (annotations : list jsstring) (line : jsstring) : bool :=
  existsb (fun annotation => includes line annotation) annotations.

End V1.

(* ================================================================== *)
(** ** Checks on concrete inputs *)
(* ================================================================== *)

Example parse_single_line :
  parse testConfig (js "/** @param name user */")
  = Ok [ {| type := js "@param"; content := js "name user";
            isMultiLine := false |} ].
Proof. vm_compute. reflexivity. Qed.

Example extract_sample :
  TypeScriptParser.extractFunctions (compiler := sampleCompiler)
    sampleParser sampleFile
  = Ok [ {| name := js "f";
            annotations := [ {| type := js "@param"; content := js "a x";
                                isMultiLine := false |} ];
            location := {| line := 2; column := 1 |} |};
         {| name := js "g"; annotations := [];
            location := {| line := 3; column := 1 |} |};
         {| name := js "h"; annotations := [];
            location := {| line := 3; column := 16 |} |};
         {| name := js "k"; annotations := [];
            location := {| line := 4; column := 1 |} |} ].
Proof. vm_compute. reflexivity. Qed.

(* ================================================================== *)
(** ** Strings *)
(* ================================================================== *)

Lemma dropWhile_app (p : char -> bool) (a b : jsstring) :
  dropWhile p (a ++ b)
  = match dropWhile p a with
    | [] => dropWhile p b
    | r => r ++ b
    end.
Proof.
  induction a as [|c a IH]; simpl; [reflexivity|].
  destruct (p c); [exact IH | reflexivity].
Qed.

Lemma dropWhile_idem (p : char -> bool) (s : jsstring) :
  dropWhile p (dropWhile p s) = dropWhile p s.
Proof.
  induction s as [|c s IH]; simpl; [reflexivity|].
  destruct (p c) eqn:E; [exact IH | simpl; rewrite E; reflexivity].
Qed.

Lemma dropWhileEnd_cons (p : char -> bool) (c : char) (s : jsstring) :
  dropWhileEnd p (c :: s)
  = match dropWhileEnd p s with
    | [] => if p c then [] else [c]
    | r => c :: r
    end.
Proof.
  unfold dropWhileEnd. simpl rev. rewrite dropWhile_app.
  destruct (dropWhile p (rev s)) as [|d r].
  - simpl. destruct (p c); reflexivity.
  - rewrite rev_app_distr. change (rev [c]) with [c].
    remember (rev (d :: r)) as x eqn:E.
    destruct x; [|reflexivity].
    apply (f_equal (@length char)) in E. rewrite length_rev in E.
    discriminate E.
Qed.

Lemma dropWhileEnd_idem (p : char -> bool) (s : jsstring) :
  dropWhileEnd p (dropWhileEnd p s) = dropWhileEnd p s.
Proof.
  unfold dropWhileEnd. rewrite rev_involutive, dropWhile_idem. reflexivity.
Qed.

(** Dropping from the end keeps a head that the predicate rejects. *)
Lemma dropWhile_dropWhileEnd (p : char -> bool) (s : jsstring) :
  dropWhile p (dropWhileEnd p (dropWhile p s)) = dropWhileEnd p (dropWhile p s).
Proof.
  assert (H : forall x, dropWhile p x = x ->
                        dropWhile p (dropWhileEnd p x) = dropWhileEnd p x).
  { intros [|c x] Hx; [reflexivity|].
    simpl in Hx. destruct (p c) eqn:E.
    - exfalso. assert (L : length (dropWhile p x) <= length x).
      { clear. induction x as [|d x IH]; simpl; [lia|].
        destruct (p d); simpl; lia. }
      rewrite Hx in L. simpl in L. lia.
    - rewrite dropWhileEnd_cons.
      destruct (dropWhileEnd p x); rewrite ?E; simpl; rewrite E; reflexivity. }
  apply H, dropWhile_idem.
Qed.

Lemma trim_idem (s : jsstring) : trim (trim s) = trim s.
Proof.
  unfold trim. rewrite dropWhile_dropWhileEnd. apply dropWhileEnd_idem.
Qed.

Lemma split_nonempty (sep : char) (s : jsstring) : split sep s <> [].
Proof.
  destruct s as [|c s]; simpl; [discriminate|].
  destruct (c =? sep)%N; [discriminate|].
  destruct (split sep s); discriminate.
Qed.

Lemma split_app_sep (sep : char) (a b : jsstring) :
  split sep (a ++ sep :: b) = split sep a ++ split sep b.
Proof.
  induction a as [|c a IH]; simpl.
  - rewrite N.eqb_refl. reflexivity.
  - destruct (c =? sep)%N.
    + rewrite IH. reflexivity.
    + rewrite IH. pose proof (split_nonempty sep a) as Hne.
      destruct (split sep a); [contradiction | reflexivity].
Qed.

Lemma split_without_sep (sep : char) (s : jsstring) :
  ~ In sep s -> split sep s = [s].
Proof.
  induction s as [|c s IH]; simpl; intros Hs; [reflexivity|].
  destruct (c =? sep)%N eqn:E.
  - apply N.eqb_eq in E. exfalso. apply Hs. left. exact E.
  - rewrite IH; [reflexivity | tauto].
Qed.

Lemma startsWith_nil_inv (t : jsstring) : startsWith [] t = true -> t = [].
Proof. destruct t; [reflexivity | discriminate]. Qed.

Lemma forOf_app {S A : Type} (body : S -> A -> result S) (xs ys : list A) (st : S) :
  forOf body (xs ++ ys) st = (st' <- forOf body xs st ;; forOf body ys st').
Proof.
  revert st. induction xs as [|x xs IH]; intros st; simpl; [reflexivity|].
  destruct (body st x); simpl; [apply IH | reflexivity].
Qed.

(* ================================================================== *)
(** ** Tag matching *)
(* ================================================================== *)

Lemma find_first {A : Type} (f : A -> bool) (before : list A) (x : A)
      (after : list A) :
  Forall (fun y => f y = false) before ->
  f x = true ->
  find f (before ++ x :: after) = Some x.
Proof.
  induction 1 as [|y before Hy _ IH]; intros Hx; simpl.
  - rewrite Hx. reflexivity.
  - rewrite Hy. apply IH, Hx.
Qed.

Lemma find_all_false {A : Type} (f : A -> bool) (l : list A) :
  (forall y, In y l -> f y = false) -> find f l = None.
Proof.
  induction l as [|y l IH]; intros H; simpl; [reflexivity|].
  rewrite (H y (or_introl eq_refl)). apply IH.
  intros z Hz. apply H. right. exact Hz.
Qed.

Lemma findAnnotationType_Some (config : AnnotationConfig) (line tag : jsstring) :
  findAnnotationType config line = Some tag ->
  In tag (supportedAnnotations config)
  /\ startsWith line tag = true
  /\ truthy tag = true.
Proof.
  unfold findAnnotationType.
  destruct (find _ _) as [a|] eqn:F; [|discriminate].
  destruct (truthy a) eqn:T; [|discriminate].
  intros E. injection E as <-.
  apply find_some in F. tauto.
Qed.

Lemma findAnnotationType_nil (config : AnnotationConfig) :
  findAnnotationType config [] = None.
Proof.
  unfold findAnnotationType.
  destruct (find _ _) as [a|] eqn:F; [|reflexivity].
  apply find_some in F. destruct F as [_ F].
  apply startsWith_nil_inv in F. subst a. reflexivity.
Qed.

(** C4, as the code has it: the tag matched for a line is the first
    configured tag that is a prefix of the line, whatever follows it in
    the configured list (longer matching tags included); when that first
    prefix is the empty string, no tag is matched. *)
Theorem findAnnotationType_first_match
        (config : AnnotationConfig) (line : jsstring)
        (before : list jsstring) (tag : jsstring) (after : list jsstring) :
  supportedAnnotations config = before ++ tag :: after ->
  Forall (fun t => startsWith line t = false) before ->
  startsWith line tag = true ->
  findAnnotationType config line = (if truthy tag then Some tag else None).
Proof.
  intros Htags Hbefore Htag. unfold findAnnotationType.
  rewrite Htags, (find_first _ _ _ _ Hbefore Htag).
  reflexivity.
Qed.

Lemma findAnnotationType_first_match_witness :
  findAnnotationType overlappingConfig (js "@paramType x")
  = (if truthy (js "@param") then Some (js "@param") else None).
Proof.
  apply (findAnnotationType_first_match overlappingConfig (js "@paramType x")
           [] (js "@param") [js "@paramType"]).
  - reflexivity.
  - constructor.
  - reflexivity.
Defined.

(** C4, as the claim has it, fails: with the tags ["@param"] and
    ["@paramType"] configured in that order, both are prefixes of the
    line ["@paramType x"], and the shorter one is matched. *)
Lemma longest_match_does_not_win :
  findAnnotationType overlappingConfig (js "@paramType x") = Some (js "@param")
  /\ In (js "@paramType") (supportedAnnotations overlappingConfig)
  /\ startsWith (js "@paramType x") (js "@paramType") = true
  /\ length (js "@param") < length (js "@paramType").
Proof.
  repeat split.
  - right. left. reflexivity.
  - vm_compute. lia.
Qed.

(* ================================================================== *)
(** ** The loop never raises *)
(* ================================================================== *)

Lemma pushCurrent_wellFormed (st : ParseState) :
  wellFormed st -> exists anns, pushCurrent st = Ok anns.
Proof.
  unfold wellFormed, pushCurrent.
  destruct (currentAnnotation st) as [cur|]; [|eauto].
  intros (tag & body & flag & -> & Htag). simpl. rewrite Htag.
  destruct (truthy body); simpl; eauto.
Qed.

Lemma parseLine_wellFormed (config : AnnotationConfig) (st : ParseState)
      (line : jsstring) :
  wellFormed st ->
  exists st', parseLine config st line = Ok st' /\ wellFormed st'.
Proof.
  intros Hst. unfold parseLine.
  destruct (findAnnotationType config (cleanLine line)) as [tag|] eqn:F.
  - destruct (pushCurrent_wellFormed st Hst) as [anns ->]. simpl.
    eexists. split; [reflexivity|].
    unfold wellFormed. simpl. do 3 eexists. split; [reflexivity|].
    apply findAnnotationType_Some in F. tauto.
  - destruct (currentAnnotation st) as [cur|] eqn:C; [|eauto].
    destruct (multiLineSupport config); [|eauto].
    eexists. split; [reflexivity|].
    unfold wellFormed in Hst |- *. rewrite C in Hst. simpl.
    destruct Hst as (tag & body & flag & -> & Htag). simpl.
    do 3 eexists. split; [reflexivity | exact Htag].
Qed.

Lemma forOf_wellFormed (config : AnnotationConfig) (lines : list jsstring)
      (st : ParseState) :
  wellFormed st ->
  exists st', forOf (parseLine config) lines st = Ok st' /\ wellFormed st'.
Proof.
  revert st. induction lines as [|l lines IH]; intros st Hst; simpl.
  - eauto.
  - destruct (parseLine_wellFormed config st l Hst) as (st1 & -> & Hst1).
    simpl. apply IH, Hst1.
Qed.

Lemma wellFormed_initialState : wellFormed initialState.
Proof. exact I. Qed.

Lemma parse_Ok (config : AnnotationConfig) (comments : jsstring) :
  exists anns, parse config comments = Ok anns.
Proof.
  unfold parse.
  destruct (forOf_wellFormed config (split LF comments) _ wellFormed_initialState)
    as (st & -> & Hst).
  simpl. apply pushCurrent_wellFormed, Hst.
Qed.

(** C3: [AnnotationParser.parse] returns a sequence of annotations on
    every input and never raises; on the empty string the sequence is
    empty. *)
Theorem parse_total :
  (forall (config : AnnotationConfig) (comments : jsstring),
      exists anns, parse config comments = Ok anns)
  /\ (forall config : AnnotationConfig, parse config [] = Ok []).
Proof.
  split; [exact parse_Ok|].
  intros config. unfold parse. simpl. unfold parseLine.
  change (cleanLine []) with (@nil char).
  rewrite findAnnotationType_nil. reflexivity.
Qed.

(* ================================================================== *)
(** ** Scenarios *)
(* ================================================================== *)

(** C1 fails on the code: the emptiness test of [parse] looks at the
    content before [finalizeAnnotation] trims it. In a block comment
    whose tag has no body, the closing line contributes a line break, the
    content is a lone line break at the test, and the annotation is
    pushed with an empty content. *)
Theorem parse_emits_empty_content :
  parse defaultParserConfig (js "/**" ++ LF :: js " * @param" ++ LF :: js " */")
  = Ok [ {| type := js "@param"; content := []; isMultiLine := true |} ].
Proof. vm_compute. reflexivity. Qed.

(** What the test of [parse] does achieve: a tag line with no body that
    is directly followed by another tag line is dropped. *)
Lemma empty_tag_before_tag_is_dropped
      (config : AnnotationConfig) (st : ParseState) (tag : jsstring)
      (flag : bool) (line : jsstring) (next : jsstring) :
  currentAnnotation st
  = Some {| PartialAnnotation.type := Some tag;
            PartialAnnotation.content := Some [];
            PartialAnnotation.isMultiLine := Some flag |} ->
  findAnnotationType config (cleanLine line) = Some next ->
  exists st', parseLine config st line = Ok st' /\ emitted st' = emitted st.
Proof.
  intros Hcur Hnext. unfold parseLine, pushCurrent. rewrite Hnext, Hcur.
  simpl. rewrite andb_false_r. simpl. eauto.
Qed.

(** C5: the comment
    ["/** @param name desc" LF "@returns result */"], parsed with the
    tags ["@param"] and ["@returns"] and continuation enabled, gives two
    single-line annotations, in order. *)
Theorem parse_param_returns_scenario :
  parse scenarioConfig
        (js "/** @param name desc" ++ LF :: js "@returns result */")
  = Ok [ {| type := js "@param"; content := js "name desc";
            isMultiLine := false |};
         {| type := js "@returns"; content := js "result";
            isMultiLine := false |} ].
Proof. vm_compute. reflexivity. Qed.

(* ================================================================== *)
(** ** Continuation switched off *)
(* ================================================================== *)

Lemma pushCurrent_untouched (st : ParseState) :
  untouched st -> pushCurrent st = Ok (emitted st ++ pending st).
Proof.
  unfold untouched, pushCurrent, pending.
  destruct (currentAnnotation st) as [cur|];
    [|intros _; rewrite app_nil_r; reflexivity].
  intros (tag & rest & -> & Htag). simpl. rewrite Htag. simpl.
  destruct (truthy (trim rest)); simpl.
  - rewrite trim_idem. reflexivity.
  - rewrite app_nil_r. reflexivity.
Qed.

Lemma parseLine_untouched (config : AnnotationConfig) (st : ParseState)
      (line : jsstring) :
  multiLineSupport config = false ->
  untouched st ->
  exists st',
    parseLine config st line = Ok st'
    /\ untouched st'
    /\ emitted st' ++ pending st'
       = emitted st ++ pending st ++ optionToList (tagLineAnnotation config line).
Proof.
  intros Hoff Hst. unfold parseLine, tagLineAnnotation.
  destruct (findAnnotationType config (cleanLine line)) as [tag|] eqn:F.
  - rewrite (pushCurrent_untouched st Hst). simpl.
    eexists. split; [reflexivity|]. split.
    + unfold untouched. simpl. do 2 eexists. split; [reflexivity|].
      apply findAnnotationType_Some in F. tauto.
    + unfold pending. simpl. rewrite <- app_assoc. f_equal. f_equal.
      destruct (truthy _); reflexivity.
  - simpl. rewrite app_nil_r. rewrite Hoff.
    exists st. split; [destruct (currentAnnotation st); reflexivity|].
    split; [exact Hst | reflexivity].
Qed.

Lemma forOf_untouched (config : AnnotationConfig) (lines : list jsstring)
      (st : ParseState) :
  multiLineSupport config = false ->
  untouched st ->
  exists st',
    forOf (parseLine config) lines st = Ok st'
    /\ untouched st'
    /\ emitted st' ++ pending st'
       = emitted st ++ pending st
         ++ flat_map (fun l => optionToList (tagLineAnnotation config l)) lines.
Proof.
  intros Hoff. revert st.
  induction lines as [|l lines IH]; intros st Hst; simpl.
  - exists st. rewrite app_nil_r. auto.
  - destruct (parseLine_untouched config st l Hoff Hst) as (st1 & -> & Hst1 & E1).
    simpl. destruct (IH st1 Hst1) as (st2 & -> & Hst2 & E2).
    exists st2. split; [reflexivity|]. split; [exact Hst2|].
    rewrite E2, app_assoc, E1, <- !app_assoc. reflexivity.
Qed.

(** With continuation off, the result is read off the tag lines alone. *)
Lemma parse_skips_non_tag_lines (config : AnnotationConfig) (comments : jsstring) :
  multiLineSupport config = false ->
  parse config comments
  = Ok (flat_map (fun l => optionToList (tagLineAnnotation config l))
                 (split LF comments)).
Proof.
  intros Hoff. unfold parse.
  destruct (forOf_untouched config (split LF comments) initialState Hoff I)
    as (st & -> & Hst & E).
  simpl. rewrite (pushCurrent_untouched st Hst). f_equal. exact E.
Qed.

(** C9: with [multiLineSupport] off, every annotation that [parse]
    returns has [isMultiLine] false, and its content is the trimmed
    remainder, after the matched tag, of the (cleaned) tag line it comes
    from. *)
Theorem parse_without_continuation_tag_lines_only
        (config : AnnotationConfig) (comments : jsstring) :
  multiLineSupport config = false ->
  exists anns,
    parse config comments = Ok anns
    /\ Forall (fun a =>
                 isMultiLine a = false
                 /\ exists line,
                     In line (split LF comments)
                     /\ findAnnotationType config (cleanLine line) = Some (type a)
                     /\ content a
                        = trim (substringFrom (length (type a)) (cleanLine line)))
              anns.
Proof.
  intros Hoff. eexists. split; [apply parse_skips_non_tag_lines, Hoff|].
  apply Forall_forall. intros a Ha.
  apply in_flat_map in Ha. destruct Ha as (l & Hl & Ha).
  unfold tagLineAnnotation in Ha.
  destruct (findAnnotationType config (cleanLine l)) as [tag|] eqn:F;
    [|contradiction].
  destruct (truthy _); [|contradiction].
  destruct Ha as [<-|[]]. simpl. split; [reflexivity|].
  exists l. auto.
Qed.

Lemma parse_without_continuation_tag_lines_only_witness :
  exists anns,
    parse singleLineConfig blockComment = Ok anns
    /\ Forall (fun a =>
                 isMultiLine a = false
                 /\ exists line,
                     In line (split LF blockComment)
                     /\ findAnnotationType singleLineConfig (cleanLine line)
                        = Some (type a)
                     /\ content a
                        = trim (substringFrom (length (type a)) (cleanLine line)))
              anns.
Proof.
  apply (parse_without_continuation_tag_lines_only singleLineConfig blockComment).
  reflexivity.
Defined.

Example parse_blockComment_without_continuation :
  parse singleLineConfig blockComment
  = Ok [ {| type := js "@param"; content := js "a first";
            isMultiLine := false |} ].
Proof. vm_compute. reflexivity. Qed.

(* ================================================================== *)
(** ** The closing line of a block comment *)
(* ================================================================== *)

Lemma cleanLine_closer (closing : jsstring) :
  trim closing = js "*/" -> cleanLine closing = [].
Proof. intros H. unfold cleanLine. rewrite H. reflexivity. Qed.

(** C10: with continuation on, a closing line that holds nothing but
    ["*/"] is cleaned to the empty string and appended to the annotation
    that is open when it is reached, so that annotation is emitted with
    [isMultiLine] true and with a line break added to its content before
    the final trim. *)
Theorem parse_closing_line_marks_multiline
        (config : AnnotationConfig) (before closing : jsstring)
        (st : ParseState) (cur : PartialAnnotation.t) :
  multiLineSupport config = true ->
  trim closing = js "*/" ->
  ~ In LF closing ->
  forOf (parseLine config) (split LF before) initialState = Ok st ->
  currentAnnotation st = Some cur ->
  cleanLine closing = []
  /\ exists tag body,
      PartialAnnotation.type cur = Some tag
      /\ PartialAnnotation.content cur = Some body
      /\ parse config (before ++ LF :: closing)
         = Ok (emitted st
               ++ [ {| type := tag;
                       content := trim (body ++ [LF]);
                       isMultiLine := true |} ]).
Proof.
  intros Hon Hclosing Hline Hrun Hcur.
  pose proof (cleanLine_closer closing Hclosing) as Hclean.
  split; [exact Hclean|].
  destruct (forOf_wellFormed config (split LF before) _ wellFormed_initialState)
    as (st' & Hrun' & Hst).
  rewrite Hrun in Hrun'. injection Hrun' as <-.
  unfold wellFormed in Hst. rewrite Hcur in Hst.
  destruct Hst as (tag & body & flag & -> & Htag).
  exists tag, body. split; [reflexivity|]. split; [reflexivity|].
  unfold parse.
  rewrite split_app_sep, (split_without_sep LF closing Hline), forOf_app, Hrun.
  simpl. unfold parseLine.
  rewrite Hclean, findAnnotationType_nil, Hcur, Hon. simpl.
  unfold pushCurrent. simpl. rewrite Htag.
  destruct body; reflexivity.
Qed.

Lemma parse_closing_line_marks_multiline_witness :
  cleanLine (js " */") = []
  /\ exists tag body,
      Some (js "@param") = Some tag
      /\ Some (js "a") = Some body
      /\ parse defaultParserConfig
               ((js "/**" ++ LF :: js " * @param a") ++ LF :: js " */")
         = Ok ([]
               ++ [ {| type := tag;
                       content := trim (body ++ [LF]);
                       isMultiLine := true |} ]).
Proof.
  apply (parse_closing_line_marks_multiline
           defaultParserConfig
           (js "/**" ++ LF :: js " * @param a") (js " */")
           {| emitted := [];
              currentAnnotation :=
                Some {| PartialAnnotation.type := Some (js "@param");
                        PartialAnnotation.content := Some (js "a");
                        PartialAnnotation.isMultiLine := Some false |} |}
           {| PartialAnnotation.type := Some (js "@param");
              PartialAnnotation.content := Some (js "a");
              PartialAnnotation.isMultiLine := Some false |}).
  - reflexivity.
  - reflexivity.
  - vm_compute. intros [H|[H|[H|[]]]]; discriminate H.
  - vm_compute. reflexivity.
  - reflexivity.
Defined.

(* ================================================================== *)
(** ** Continuation lines *)
(* ================================================================== *)

Lemma find_only {A : Type} (eq_dec : forall x y : A, {x = y} + {x <> y})
      (f : A -> bool) (x : A) (l : list A) :
  In x l ->
  f x = true ->
  (forall y, In y l -> y <> x -> f y = false) ->
  find f l = Some x.
Proof.
  induction l as [|y l IH]; intros Hin Hx Hother; [contradiction|].
  simpl. destruct (eq_dec y x) as [->|Hne].
  - rewrite Hx. reflexivity.
  - rewrite (Hother y (or_introl eq_refl) Hne).
    apply IH; [|exact Hx|].
    + destruct Hin as [E|Hin]; [contradiction | exact Hin].
    + intros z Hz. apply Hother. right. exact Hz.
Qed.

(** The scenario, for every configuration that reads the three lines
    the way the scenario means them. *)
Lemma parse_continuation_lines (config : AnnotationConfig) :
  multiLineSupport config = true ->
  findAnnotationType config (js "@description") = Some (js "@description") ->
  findAnnotationType config (js "line1") = None ->
  findAnnotationType config (js "line2") = None ->
  parse config continuationComment
  = Ok [ {| type := js "@description";
            content := js "line1" ++ LF :: js "line2";
            isMultiLine := true |} ].
Proof.
  intros Hon H0 H1 H2. unfold parse.
  change (split LF continuationComment)
    with [js "@description"; js "line1"; js "line2"].
  cbn [forOf]. unfold parseLine at 1.
  change (cleanLine (js "@description")) with (js "@description").
  rewrite H0. cbn [bind pushCurrent initialState currentAnnotation emitted].
  unfold parseLine at 1.
  change (cleanLine (js "line1")) with (js "line1").
  rewrite H1. cbn [bind currentAnnotation emitted]. rewrite Hon. cbn [bind].
  unfold parseLine at 1.
  change (cleanLine (js "line2")) with (js "line2").
  rewrite H2. cbn [bind currentAnnotation emitted]. rewrite Hon.
  vm_compute. reflexivity.
Qed.

(** C6: the comment ["@description" LF "line1" LF "line2"], parsed with
    continuation enabled and ["@description"] among the supported tags
    (no other supported tag being a prefix of one of the three lines),
    gives one annotation with tag ["@description"], a content that holds
    ["line1"] and then ["line2"], and [isMultiLine] true. *)
Theorem parse_description_continuation (config : AnnotationConfig) :
  multiLineSupport config = true ->
  In (js "@description") (supportedAnnotations config) ->
  (forall tag line,
      In tag (supportedAnnotations config) ->
      tag <> js "@description" ->
      In line [js "@description"; js "line1"; js "line2"] ->
      startsWith line tag = false) ->
  exists a,
    parse config continuationComment = Ok [a]
    /\ type a = js "@description"
    /\ containsInOrder (content a) (js "line1") (js "line2")
    /\ isMultiLine a = true.
Proof.
  intros Hon Hin Hother.
  eexists. split.
  - apply parse_continuation_lines; [exact Hon | | |].
    + unfold findAnnotationType.
      rewrite (find_only jsstring_eq_dec _ (js "@description")); auto.
      intros y Hy Hne. apply Hother; simpl; auto.
    + unfold findAnnotationType. rewrite find_all_false; [reflexivity|].
      intros y Hy. destruct (jsstring_eq_dec y (js "@description")) as [->|Hne];
        [reflexivity | apply Hother; simpl; auto].
    + unfold findAnnotationType. rewrite find_all_false; [reflexivity|].
      intros y Hy. destruct (jsstring_eq_dec y (js "@description")) as [->|Hne];
        [reflexivity | apply Hother; simpl; auto].
  - simpl. split; [reflexivity|]. split; [|reflexivity].
    exists [], [LF], []. reflexivity.
Qed.

Lemma parse_description_continuation_witness :
  exists a,
    parse testConfig continuationComment = Ok [a]
    /\ type a = js "@description"
    /\ containsInOrder (content a) (js "line1") (js "line2")
    /\ isMultiLine a = true.
Proof.
  apply (parse_description_continuation testConfig).
  - reflexivity.
  - simpl. auto.
  - intros tag line Htag Hne Hline.
    simpl in Htag, Hline.
    destruct Htag as [<-|[<-|[<-|[<-|[]]]]];
      try (exfalso; apply Hne; reflexivity);
      destruct Hline as [<-|[<-|[<-|[]]]]; reflexivity.
Defined.

(** C6, as the claim has it, fails: ["@description"] being among the
    supported tags is not enough. With ["@desc"] configured before it,
    the first line is matched by ["@desc"], and the one annotation
    returned carries that tag. *)
Lemma description_tag_can_be_shadowed :
  multiLineSupport shadowingConfig = true
  /\ In (js "@description") (supportedAnnotations shadowingConfig)
  /\ parse shadowingConfig continuationComment
     = Ok [ {| type := js "@desc";
               content := js "ription" ++ LF :: js "line1" ++ LF :: js "line2";
               isMultiLine := true |} ]
  /\ ~ (exists a anns,
           parse shadowingConfig continuationComment = Ok anns
           /\ In a anns
           /\ type a = js "@description").
Proof.
  split; [reflexivity|].
  split; [right; left; reflexivity|].
  assert (E : parse shadowingConfig continuationComment
              = Ok [ {| type := js "@desc";
                        content := js "ription" ++ LF :: js "line1" ++ LF ::
                                   js "line2";
                        isMultiLine := true |} ])
    by (vm_compute; reflexivity).
  split; [exact E|].
  intros (a & anns & H & Hin & Htype).
  rewrite E in H. injection H as <-.
  destruct Hin as [<-|[]]. discriminate Htype.
Qed.

(* ================================================================== *)
(** ** The declaration locator *)
(* ================================================================== *)

Lemma Node_children_ind (P : ts.Node -> Prop) :
  (forall node, Forall P (ts.children node) -> P node) ->
  forall node, P node.
Proof.
  intros H. fix IH 1. intros [k fullStart start nm nodes].
  apply H. simpl. induction nodes as [|c nodes IHnodes]; constructor.
  - apply IH.
  - exact IHnodes.
Qed.

Lemma preorder_eq (node : ts.Node) :
  preorder node = [node] ++ flat_map preorder (ts.children node).
Proof. destruct node; reflexivity. Qed.

Lemma Forall2_app_inv_In {A B : Type} (R : A -> B -> Prop)
      (xs : list A) (ys : list B) (x : A) :
  Forall2 R xs ys -> In x xs -> exists y, In y ys /\ R x y.
Proof.
  induction 1 as [|x0 y0 xs ys HR _ IH]; intros Hin; [contradiction|].
  destruct Hin as [->|Hin].
  - exists y0. split; [left; reflexivity | exact HR].
  - destruct (IH Hin) as (y & Hy & Hxy). exists y. split; [right|]; assumption.
Qed.

Lemma Forall2_In_right {A B : Type} (R : A -> B -> Prop)
      (xs : list A) (ys : list B) (y : B) :
  Forall2 R xs ys -> In y ys -> exists x, In x xs /\ R x y.
Proof.
  induction 1 as [|x0 y0 xs ys HR _ IH]; intros Hin; [contradiction|].
  destruct Hin as [->|Hin].
  - exists x0. split; [left; reflexivity | exact HR].
  - destruct (IH Hin) as (x & Hx & Hxy). exists x. split; [right|]; assumption.
Qed.

Section Locator.

Context {compiler : ts.Compiler}.

Variable this : PartialConfig.t.
Variable sourceFile : ts.SourceFile.

Import TypeScriptParser.

Lemma parseAnnotations_Ok (comments : jsstring) :
  exists anns, parseAnnotations this comments = Ok anns.
Proof.
  unfold parseAnnotations. destruct (truthy comments).
  - apply parse_Ok.
  - eauto.
Qed.

Lemma processFunctionDeclaration_named (node : ts.Node) (nodeName : ts.Identifier) :
  ts.name node = Some nodeName ->
  exists fm,
    located this sourceFile node fm
    /\ name fm = ts.getText nodeName
    /\ location fm
       = oneBased (ts.getLineAndCharacterOfPosition sourceFile (ts.getStart node))
    /\ parseAnnotations this
         (getLeadingComments (ts.getFullText sourceFile) (ts.getFullStart node))
       = Ok (annotations fm).
Proof.
  intros Hname. unfold located, processFunctionDeclaration. rewrite Hname.
  destruct (parseAnnotations_Ok
              (getLeadingComments (ts.getFullText sourceFile)
                                  (ts.getFullStart node))) as [anns ->].
  simpl. eexists. split; [reflexivity|]. simpl. auto.
Qed.

Lemma forOf_visit (nodes : list ts.Node) :
  Forall (fun node =>
            forall functions,
            exists found,
              visit this sourceFile node functions = Ok (functions ++ found)
              /\ Forall2 (located this sourceFile)
                         (filter isNamedFunctionDeclaration (preorder node))
                         found) nodes ->
  forall functions,
  exists found,
    forOf (fun st child => visit this sourceFile child st) nodes functions
    = Ok (functions ++ found)
    /\ Forall2 (located this sourceFile)
               (filter isNamedFunctionDeclaration (flat_map preorder nodes))
               found.
Proof.
  induction 1 as [|c nodes Hc _ IH]; intros functions; simpl.
  - exists []. rewrite app_nil_r. split; [reflexivity | constructor].
  - destruct (Hc functions) as (found1 & -> & H1). simpl.
    destruct (IH (functions ++ found1)) as (found2 & -> & H2).
    exists (found1 ++ found2). rewrite app_assoc. split; [reflexivity|].
    rewrite filter_app. apply Forall2_app; assumption.
Qed.

Lemma visit_eq (node : ts.Node) (functions : list FunctionMetadata) :
  visit this sourceFile node functions
  = (functions1 <- visitHere this sourceFile node functions ;;
     ts.forEachChild node (visit this sourceFile) functions1).
Proof. destruct node; reflexivity. Qed.

Lemma visitHere_located (node : ts.Node) (functions : list FunctionMetadata) :
  exists here,
    visitHere this sourceFile node functions = Ok (functions ++ here)
    /\ Forall2 (located this sourceFile) (filter isNamedFunctionDeclaration [node]) here.
Proof.
  unfold visitHere, isNamedFunctionDeclaration. simpl filter.
  destruct (ts.isFunctionDeclaration node); simpl.
  - destruct (ts.name node) as [nodeName|] eqn:Hname.
    + destruct (processFunctionDeclaration_named node nodeName Hname)
        as (fm & Hfm & _).
      exists [fm]. unfold located in Hfm. rewrite Hfm. simpl.
      split; [reflexivity|]. constructor; [exact Hfm | constructor].
    + exists []. rewrite app_nil_r. split; [reflexivity | constructor].
  - exists []. rewrite app_nil_r. split; [reflexivity | constructor].
Qed.

Lemma visit_preorder (node : ts.Node) :
  forall functions,
  exists found,
    visit this sourceFile node functions = Ok (functions ++ found)
    /\ Forall2 (located this sourceFile) (filter isNamedFunctionDeclaration (preorder node)) found.
Proof.
  induction node as [node IH] using Node_children_ind.
  intros functions.
  destruct (visitHere_located node functions) as (here & Ehere & Hhere).
  destruct (forOf_visit (ts.children node) IH (functions ++ here))
    as (below & Ebelow & Hbelow).
  exists (here ++ below). split.
  - rewrite visit_eq, Ehere. simpl bind. unfold ts.forEachChild.
    rewrite app_assoc. exact Ebelow.
  - rewrite preorder_eq, filter_app. apply Forall2_app; assumption.
Qed.

(** The output of [extractFunctions], in full. *)
Lemma extractFunctions_documentOrder :
  exists functions,
    extractFunctions this sourceFile = Ok functions
    /\ Forall2 (located this sourceFile) (documentOrder sourceFile) functions.
Proof.
  unfold extractFunctions, documentOrder.
  destruct (visit_preorder (ts.root sourceFile) []) as (found & E & H).
  exists found. split; assumption.
Qed.

Lemma located_functional (node : ts.Node) (fm fm' : FunctionMetadata) :
  located this sourceFile node fm -> located this sourceFile node fm' -> fm = fm'.
Proof.
  unfold located. intros H H'. rewrite H in H'. injection H' as E. exact E.
Qed.

(** Every named function declaration has its record in the output. *)
Lemma extractFunctions_complete (node : ts.Node) (nodeName : ts.Identifier) :
  In node (documentOrder sourceFile) ->
  ts.name node = Some nodeName ->
  exists functions fm,
    extractFunctions this sourceFile = Ok functions
    /\ In fm functions
    /\ located this sourceFile node fm
    /\ name fm = ts.getText nodeName
    /\ location fm
       = oneBased (ts.getLineAndCharacterOfPosition sourceFile (ts.getStart node))
    /\ parseAnnotations this
         (getLeadingComments (ts.getFullText sourceFile) (ts.getFullStart node))
       = Ok (annotations fm).
Proof.
  intros Hnode Hname.
  destruct extractFunctions_documentOrder as (functions & E & Hall).
  destruct (Forall2_app_inv_In _ _ _ node Hall Hnode) as (fm & Hfm & Hloc).
  destruct (processFunctionDeclaration_named node nodeName Hname)
    as (fm' & Hloc' & Hrest).
  rewrite <- (located_functional node fm fm' Hloc Hloc') in Hrest.
  exists functions, fm. tauto.
Qed.

(** C7: [extractFunctions] returns, for every source tree, the records
    of the named function declarations in document order, that is, in
    the order of a depth-first traversal that visits a parent before its
    children and siblings from left to right. *)
Theorem extractFunctions_in_document_order :
  exists functions,
    extractFunctions this sourceFile = Ok functions
    /\ Forall2 (located this sourceFile) (documentOrder sourceFile) functions.
Proof. exact extractFunctions_documentOrder. Qed.

(** C2, as the code has it: for every named function declaration found
    by the locator, the reported location is the 1-based line and the
    1-based column of [node.getStart()], the start of the declaration's
    first token. *)
Theorem location_is_declaration_start
        (node : ts.Node) (nodeName : ts.Identifier) :
  In node (documentOrder sourceFile) ->
  ts.name node = Some nodeName ->
  exists functions fm,
    extractFunctions this sourceFile = Ok functions
    /\ In fm functions
    /\ located this sourceFile node fm
    /\ name fm = ts.getText nodeName
    /\ location fm
       = oneBased (ts.getLineAndCharacterOfPosition sourceFile (ts.getStart node)).
Proof.
  intros Hnode Hname.
  destruct (extractFunctions_complete node nodeName Hnode Hname)
    as (functions & fm & H).
  exists functions, fm. tauto.
Qed.

(** C8: a named function declaration that no comment precedes is in
    the output all the same, with an empty [annotations] sequence. *)
Theorem undocumented_function_is_listed
        (node : ts.Node) (nodeName : ts.Identifier) :
  In node (documentOrder sourceFile) ->
  ts.name node = Some nodeName ->
  ts.getLeadingCommentRanges (ts.getFullText sourceFile) (ts.getFullStart node)
  = None ->
  exists functions fm,
    extractFunctions this sourceFile = Ok functions
    /\ In fm functions
    /\ located this sourceFile node fm
    /\ name fm = ts.getText nodeName
    /\ annotations fm = [].
Proof.
  intros Hnode Hname Hnone.
  destruct (extractFunctions_complete node nodeName Hnode Hname)
    as (functions & fm & E & Hin & Hloc & Hn & _ & Hanns).
  exists functions, fm. repeat (split; [assumption|]).
  unfold getLeadingComments in Hanns. rewrite Hnone in Hanns.
  unfold parseAnnotations in Hanns. simpl in Hanns.
  injection Hanns as <-. reflexivity.
Qed.

End Locator.

Lemma location_is_declaration_start_witness :
  exists functions fm,
    TypeScriptParser.extractFunctions (compiler := sampleCompiler)
      sampleParser sampleFile = Ok functions
    /\ In fm functions
    /\ located (compiler := sampleCompiler) sampleParser sampleFile declH fm
    /\ name fm = js "h"
    /\ location fm = {| line := 3; column := 16 |}.
Proof.
  apply (location_is_declaration_start (compiler := sampleCompiler)
           sampleParser sampleFile declH
           {| ts.identStart := 59; ts.getText := js "h" |}).
  - vm_compute. auto.
  - reflexivity.
Defined.

(** C2, as the claim has it, fails: in [sampleText] the declaration of
    [f] starts at line 2, column 1, and that is what is reported; its
    name token starts at line 2, column 10. *)
Lemma location_is_not_name_token_start :
  exists fm nodeName,
    In declF (documentOrder sampleFile)
    /\ ts.name declF = Some nodeName
    /\ located (compiler := sampleCompiler) sampleParser sampleFile declF fm
    /\ location fm = {| line := 2; column := 1 |}
    /\ oneBased (ts.getLineAndCharacterOfPosition
                   (Compiler := sampleCompiler) sampleFile (ts.identStart nodeName))
       = {| line := 2; column := 10 |}
    /\ location fm
       <> oneBased (ts.getLineAndCharacterOfPosition
                      (Compiler := sampleCompiler) sampleFile
                      (ts.identStart nodeName)).
Proof.
  eexists. eexists.
  split; [vm_compute; auto|].
  split; [reflexivity|].
  split; [vm_compute; reflexivity|].
  split; [reflexivity|].
  split; [reflexivity|].
  discriminate.
Qed.

Lemma undocumented_function_is_listed_witness :
  exists functions fm,
    TypeScriptParser.extractFunctions (compiler := sampleCompiler)
      sampleParser sampleFile = Ok functions
    /\ In fm functions
    /\ located (compiler := sampleCompiler) sampleParser sampleFile declG fm
    /\ name fm = js "g"
    /\ annotations fm = [].
Proof.
  apply (undocumented_function_is_listed (compiler := sampleCompiler)
           sampleParser sampleFile declG
           {| ts.identStart := 44; ts.getText := js "g" |}).
  - vm_compute. auto.
  - reflexivity.
  - reflexivity.
Defined.

(* ================================================================== *)
(** ** How one step of the loop can go *)
(* ================================================================== *)

Lemma forOf_invariant {S A : Type} (body : S -> A -> result S) (Inv : S -> Prop) :
  (forall st x st', Inv st -> body st x = Ok st' -> Inv st') ->
  forall xs st st', Inv st -> forOf body xs st = Ok st' -> Inv st'.
Proof.
  intros Hstep. induction xs as [|x xs IH]; intros st st' Hst Hrun; simpl in Hrun.
  - injection Hrun as <-. exact Hst.
  - destruct (body st x) as [st1|e] eqn:E; [|discriminate].
    simpl in Hrun. apply (IH st1 st'); [|exact Hrun]. apply (Hstep st x); assumption.
Qed.

Lemma pushCurrent_inv (st : ParseState) (anns : list AnnotationMetadata) :
  pushCurrent st = Ok anns ->
  anns = emitted st
  \/ exists cur tag body,
      currentAnnotation st = Some cur
      /\ PartialAnnotation.type cur = Some tag
      /\ PartialAnnotation.content cur = Some body
      /\ truthy tag = true
      /\ truthy body = true
      /\ anns = emitted st
                ++ [ {| type := tag;
                        content := trim body;
                        isMultiLine :=
                          match PartialAnnotation.isMultiLine cur with
                          | Some b => b
                          | None => false
                          end |} ].
Proof.
  unfold pushCurrent.
  destruct (currentAnnotation st) as [cur|]; [|intros [= <-]; left; reflexivity].
  destruct cur as [[tag|] [body|] flag]; simpl;
    try (rewrite ?andb_false_r; intros [= <-]; left; reflexivity).
  destruct (truthy tag) eqn:Htag; simpl; [|intros [= <-]; left; reflexivity].
  destruct (truthy body) eqn:Hbody; simpl; [|intros [= <-]; left; reflexivity].
  intros [= <-]. right. exists {| PartialAnnotation.type := Some tag;
                                    PartialAnnotation.content := Some body;
                                  PartialAnnotation.isMultiLine := flag |}, tag, body.
  simpl. auto 10.
Qed.

Lemma parseLine_inv (config : AnnotationConfig) (st : ParseState)
      (line : jsstring) (st' : ParseState) :
  parseLine config st line = Ok st' ->
  (exists tag anns,
      findAnnotationType config (cleanLine line) = Some tag
      /\ pushCurrent st = Ok anns
      /\ st' = {| emitted := anns;
                  currentAnnotation :=
                    Some {| PartialAnnotation.type := Some tag;
                            PartialAnnotation.content :=
                              Some (trim (substringFrom (length tag)
                                                        (cleanLine line)));
                            PartialAnnotation.isMultiLine := Some false |} |})
  \/ (exists cur,
         findAnnotationType config (cleanLine line) = None
         /\ currentAnnotation st = Some cur
         /\ multiLineSupport config = true
         /\ st' = {| emitted := emitted st;
                     currentAnnotation :=
                       Some {| PartialAnnotation.type := PartialAnnotation.type cur;
                               PartialAnnotation.content :=
                                 Some (toStringOpt (PartialAnnotation.content cur)
                                       ++ LF :: cleanLine line);
                               PartialAnnotation.isMultiLine := Some true |} |})
  \/ (findAnnotationType config (cleanLine line) = None /\ st' = st).
Proof.
  unfold parseLine.
  destruct (findAnnotationType config (cleanLine line)) as [tag|] eqn:F.
  - destruct (pushCurrent st) as [anns|e] eqn:P; simpl; [|discriminate].
    intros [= <-]. left. exists tag, anns. auto.
  - destruct (currentAnnotation st) as [cur|] eqn:C.
    + destruct (multiLineSupport config) eqn:M; intros [= <-].
      * right. left. exists cur. auto.
      * right. right. auto.
    + intros [= <-]. right. right. auto.
Qed.

(* ================================================================== *)
(** ** What every emitted annotation looks like *)
(* ================================================================== *)

Lemma dropWhile_head (p : char -> bool) (s : jsstring) (c : char) (rest : jsstring) :
  dropWhile p s = c :: rest -> p c = false.
Proof.
  induction s as [|d s IH]; simpl; [discriminate|].
  destruct (p d) eqn:E; [exact IH|].
  intros [= <- _]. exact E.
Qed.

Lemma trimmed_trim (s : jsstring) : trimmed (trim s).
Proof.
  split.
  - intros c rest H.
    pose proof (dropWhile_dropWhileEnd isWhiteSpace s) as E.
    fold (trim s) in E. rewrite H in E.
    apply (dropWhile_head isWhiteSpace (c :: rest) c rest E).
  - intros front c H. unfold trim, dropWhileEnd in H.
    apply (f_equal (@rev char)) in H.
    rewrite rev_involutive, rev_app_distr in H. simpl in H.
    apply (dropWhile_head _ _ _ _ H).
Qed.

Lemma truthy_true (s : jsstring) : truthy s = true -> s <> [].
Proof. destruct s; [discriminate | discriminate]. Qed.

Lemma pushCurrent_sound (config : AnnotationConfig) (st : ParseState)
      (anns : list AnnotationMetadata) :
  soundState config st ->
  pushCurrent st = Ok anns ->
  Forall (fun a => configuredTag config a /\ trimmed (content a)) anns.
Proof.
  intros [Hemitted Hcur] H.
  destruct (pushCurrent_inv st anns H)
    as [->|(cur & tag & body & C & T & B & Htag & Hbody & ->)];
    [exact Hemitted|].
  apply Forall_app. split; [exact Hemitted|].
  constructor; [|constructor]. simpl. split.
  - split; [apply (Hcur cur tag C T) | apply truthy_true, Htag].
  - apply trimmed_trim.
Qed.

Lemma parseLine_sound (config : AnnotationConfig) (st : ParseState)
      (line : jsstring) (st' : ParseState) :
  soundState config st -> parseLine config st line = Ok st' -> soundState config st'.
Proof.
  intros Hst H.
  destruct (parseLine_inv config st line st' H)
    as [(tag & anns & F & P & ->)|[(cur & F & C & M & ->)|(F & ->)]].
  - split; simpl.
    + apply (pushCurrent_sound config st anns Hst P).
    + intros cur tag' [= <-]. simpl. intros [= <-].
      apply findAnnotationType_Some in F. tauto.
  - destruct Hst as [Hemitted Hcur]. split; simpl; [exact Hemitted|].
    intros cur' tag [= <-]. simpl. intros T. apply (Hcur cur tag C T).
  - exact Hst.
Qed.

Lemma parse_sound (config : AnnotationConfig) (comments : jsstring) :
  exists anns,
    parse config comments = Ok anns
    /\ Forall (fun a => configuredTag config a /\ trimmed (content a)) anns.
Proof.
  destruct (parse_Ok config comments) as [anns H].
  exists anns. split; [exact H|].
  unfold parse in H.
  destruct (forOf (parseLine config) (split LF comments) initialState)
    as [st|e] eqn:Hrun; [|discriminate].
  simpl in H. apply (pushCurrent_sound config st anns); [|exact H].
  apply (forOf_invariant (parseLine config) (soundState config)
           (parseLine_sound config) (split LF comments) initialState st);
    [|exact Hrun].
  split; [constructor | intros cur tag; discriminate].
Qed.

(** X1: every annotation that [parse] returns carries one of the
    configured tags, and never the empty string. *)
Theorem parse_emits_configured_tags
        (config : AnnotationConfig) (comments : jsstring) :
  exists anns,
    parse config comments = Ok anns
    /\ Forall (configuredTag config) anns.
Proof.
  destruct (parse_sound config comments) as (anns & H & Hall).
  exists anns. split; [exact H|].
  apply Forall_forall. intros a Ha.
  rewrite Forall_forall in Hall. apply (Hall a Ha).
Qed.

(** X2: the content of every annotation that [parse] returns neither
    starts nor ends with a white-space character. *)
Theorem parse_emits_trimmed_content
        (config : AnnotationConfig) (comments : jsstring) :
  exists anns,
    parse config comments = Ok anns
    /\ Forall (fun a => trimmed (content a)) anns.
Proof.
  destruct (parse_sound config comments) as (anns & H & Hall).
  exists anns. split; [exact H|].
  apply Forall_forall. intros a Ha.
  rewrite Forall_forall in Hall. apply (Hall a Ha).
Qed.

(* ================================================================== *)
(** ** Lines that open no annotation *)
(* ================================================================== *)

Lemma isTagLine_false (config : AnnotationConfig) (line : jsstring) :
  isTagLine config line = false ->
  findAnnotationType config (cleanLine line) = None.
Proof.
  unfold isTagLine.
  destruct (findAnnotationType config (cleanLine line)); [discriminate | reflexivity].
Qed.

Lemma forOf_idle (config : AnnotationConfig) (lines : list jsstring)
      (st : ParseState) :
  Forall (fun l => isTagLine config l = false) lines ->
  currentAnnotation st = None ->
  forOf (parseLine config) lines st = Ok st.
Proof.
  induction 1 as [|l lines Hl _ IH]; intros Hidle; simpl; [reflexivity|].
  unfold parseLine at 1.
  rewrite (isTagLine_false config l Hl), Hidle. simpl. apply IH, Hidle.
Qed.

(** X3: a comment none of whose lines starts (once cleaned) with a
    configured tag yields no annotation at all. *)
Theorem parse_without_tag_lines
        (config : AnnotationConfig) (comments : jsstring) :
  Forall (fun l => isTagLine config l = false) (split LF comments) ->
  parse config comments = Ok [].
Proof.
  intros H. unfold parse.
  rewrite (forOf_idle config (split LF comments) initialState H eq_refl).
  reflexivity.
Qed.

Lemma parse_without_tag_lines_witness :
  parse testConfig
        (js "/**" ++ LF :: js " * Adds two numbers." ++ LF ::
         js " * @unsupported ignored" ++ LF :: js " */")
  = Ok [].
Proof.
  apply (parse_without_tag_lines testConfig).
  vm_compute. repeat constructor.
Defined.

(** X4: the lines that come before the first tag line are discarded:
    the result is the one of the rest of the comment. *)
Theorem parse_ignores_leading_prose
        (config : AnnotationConfig) (prose rest : jsstring) :
  Forall (fun l => isTagLine config l = false) (split LF prose) ->
  parse config (prose ++ LF :: rest) = parse config rest.
Proof.
  intros H. unfold parse.
  rewrite split_app_sep, forOf_app.
  rewrite (forOf_idle config (split LF prose) initialState H eq_refl).
  reflexivity.
Qed.

Lemma parse_ignores_leading_prose_witness :
  parse testConfig
        ((js "/**" ++ LF :: js " * Adds two numbers.") ++ LF ::
         (js " * @returns the sum" ++ LF :: js " */"))
  = parse testConfig (js " * @returns the sum" ++ LF :: js " */").
Proof.
  apply (parse_ignores_leading_prose testConfig).
  vm_compute. repeat constructor.
Defined.

(* ================================================================== *)
(** ** No more annotations than tag lines *)
(* ================================================================== *)

Lemma pushCurrent_accounted (st : ParseState) (anns : list AnnotationMetadata) :
  pushCurrent st = Ok anns -> length anns <= accounted st.
Proof.
  intros H. unfold accounted.
  destruct (pushCurrent_inv st anns H)
    as [->|(cur & tag & body & C & _ & _ & _ & _ & ->)].
  - lia.
  - rewrite C, length_app. simpl. lia.
Qed.

Lemma forOf_accounted (config : AnnotationConfig) (lines : list jsstring) :
  forall st st',
    forOf (parseLine config) lines st = Ok st' ->
    accounted st' <= accounted st + length (filter (isTagLine config) lines).
Proof.
  induction lines as [|l lines IH]; intros st st' H; simpl in H.
  - injection H as <-. simpl. lia.
  - destruct (parseLine config st l) as [st1|e] eqn:E; [|discriminate].
    simpl in H. specialize (IH st1 st' H).
    assert (accounted st1
            <= accounted st + (if isTagLine config l then 1 else 0)) as Hstep.
    { destruct (parseLine_inv config st l st1 E)
        as [(tag & anns & F & P & ->)|[(cur & F & C & M & ->)|(F & ->)]].
      - unfold isTagLine. rewrite F.
        pose proof (pushCurrent_accounted st anns P).
        unfold accounted at 1. simpl. lia.
      - unfold accounted. simpl. rewrite C. lia.
      - lia. }
    simpl. destruct (isTagLine config l); simpl; lia.
Qed.

(** X7: [parse] never returns more annotations than the comment has
    tag lines. *)
Theorem parse_at_most_one_per_tag_line
        (config : AnnotationConfig) (comments : jsstring) :
  exists anns,
    parse config comments = Ok anns
    /\ length anns <= length (filter (isTagLine config) (split LF comments)).
Proof.
  destruct (parse_Ok config comments) as [anns H].
  exists anns. split; [exact H|].
  unfold parse in H.
  destruct (forOf (parseLine config) (split LF comments) initialState)
    as [st|e] eqn:Hrun; [|discriminate].
  simpl in H.
  pose proof (pushCurrent_accounted st anns H).
  pose proof (forOf_accounted config (split LF comments) initialState st Hrun) as B.
  unfold accounted at 2 in B. simpl in B. lia.
Qed.

(* ================================================================== *)
(** ** A tag line closes what precedes it *)
(* ================================================================== *)

Lemma pushCurrent_prepend (more : list AnnotationMetadata) (st : ParseState)
      (anns : list AnnotationMetadata) :
  pushCurrent st = Ok anns -> pushCurrent (prepend more st) = Ok (more ++ anns).
Proof.
  unfold pushCurrent, prepend. simpl.
  destruct (currentAnnotation st) as [cur|]; [|intros [= <-]; reflexivity].
  destruct (truthyOpt (PartialAnnotation.type cur)
            && truthyOpt (PartialAnnotation.content cur));
    [|intros [= <-]; reflexivity].
  destruct (finalizeAnnotation cur) as [a|e]; simpl; [|discriminate].
  intros [= <-]. rewrite app_assoc. reflexivity.
Qed.

Lemma parseLine_prepend (config : AnnotationConfig)
      (more : list AnnotationMetadata) (st : ParseState) (line : jsstring)
      (st' : ParseState) :
  parseLine config st line = Ok st' ->
  parseLine config (prepend more st) line = Ok (prepend more st').
Proof.
  unfold parseLine.
  destruct (findAnnotationType config (cleanLine line)) as [tag|].
  - destruct (pushCurrent st) as [anns|e] eqn:P; simpl; [|discriminate].
    intros [= <-]. rewrite (pushCurrent_prepend more st anns P). reflexivity.
  - change (currentAnnotation (prepend more st)) with (currentAnnotation st).
    destruct (currentAnnotation st) as [cur|].
    + destruct (multiLineSupport config); intros [= <-]; reflexivity.
    + intros [= <-]. reflexivity.
Qed.

Lemma forOf_prepend (config : AnnotationConfig)
      (more : list AnnotationMetadata) (lines : list jsstring) :
  forall st st',
    forOf (parseLine config) lines st = Ok st' ->
    forOf (parseLine config) lines (prepend more st) = Ok (prepend more st').
Proof.
  induction lines as [|l lines IH]; intros st st' H; simpl in H |- *.
  - injection H as <-. reflexivity.
  - destruct (parseLine config st l) as [st1|e] eqn:E; [|discriminate].
    rewrite (parseLine_prepend config more st l st1 E). simpl in H |- *.
    apply IH, H.
Qed.

Lemma parse_app_tag_line
        (config : AnnotationConfig) (before rest : jsstring) :
  isTagLine config (hd [] (split LF rest)) = true ->
  exists a b,
    parse config before = Ok a
    /\ parse config rest = Ok b
    /\ parse config (before ++ LF :: rest) = Ok (a ++ b).
Proof.
  intros Htag.
  destruct (parse_Ok config before) as [a Ha].
  destruct (parse_Ok config rest) as [b Hb].
  exists a, b. split; [exact Ha|]. split; [exact Hb|].
  unfold parse in *. rewrite split_app_sep, forOf_app.
  destruct (forOf (parseLine config) (split LF before) initialState)
    as [st|e] eqn:Hbefore; [|discriminate].
  simpl in Ha |- *.
  pose proof (split_nonempty LF rest) as Hne.
  destruct (split LF rest) as [|l0 ls]; [contradiction|].
  simpl in Htag, Hb |- *. unfold isTagLine in Htag.
  unfold parseLine at 1 in Hb. unfold parseLine at 1.
  destruct (findAnnotationType config (cleanLine l0)) as [tag|]; [|discriminate].
  rewrite Ha. simpl in Hb |- *.
  set (opened := {| PartialAnnotation.type := Some tag;
                    PartialAnnotation.content :=
                      Some (trim (substringFrom (length tag) (cleanLine l0)));
                    PartialAnnotation.isMultiLine := Some false |}) in *.
  destruct (forOf (parseLine config) ls
                  {| emitted := []; currentAnnotation := Some opened |})
    as [st2|e] eqn:Hrest; [|discriminate].
  simpl in Hb.
  pose proof (forOf_prepend config a ls _ _ Hrest) as Hframed.
  unfold prepend at 1 in Hframed. simpl in Hframed. rewrite app_nil_r in Hframed.
  rewrite Hframed. simpl.
  apply pushCurrent_prepend, Hb.
Qed.

(** X5: a tag line closes the annotation before it the way the end of
    the comment does: when the text after a line break starts with a tag
    line, the result is the result of the text before the break followed
    by the result of the text after it. *)
Theorem parse_splits_at_tag_line
        (config : AnnotationConfig) (before rest : jsstring) :
  isTagLine config (hd [] (split LF rest)) = true ->
  exists a b,
    parse config before = Ok a
    /\ parse config rest = Ok b
    /\ parse config (before ++ LF :: rest) = Ok (a ++ b).
Proof. exact (parse_app_tag_line config before rest). Qed.

Lemma parse_splits_at_tag_line_witness :
  exists a b,
    parse testConfig (js "/**" ++ LF :: js " * @param a x") = Ok a
    /\ parse testConfig (js " * @returns y" ++ LF :: js " */") = Ok b
    /\ parse testConfig
             ((js "/**" ++ LF :: js " * @param a x") ++ LF ::
              (js " * @returns y" ++ LF :: js " */"))
       = Ok (a ++ b).
Proof.
  apply (parse_splits_at_tag_line testConfig).
  reflexivity.
Defined.

(* ================================================================== *)
(** ** A tag line and its continuation lines *)
(* ================================================================== *)

Lemma forOf_continuation (config : AnnotationConfig) (lines : list jsstring) :
  multiLineSupport config = true ->
  Forall (fun l => isTagLine config l = false) lines ->
  forall pushed tag body flag,
    forOf (parseLine config) lines
          {| emitted := pushed;
             currentAnnotation :=
               Some {| PartialAnnotation.type := Some tag;
                       PartialAnnotation.content := Some body;
                       PartialAnnotation.isMultiLine := Some flag |} |}
    = Ok {| emitted := pushed;
            currentAnnotation :=
              Some {| PartialAnnotation.type := Some tag;
                      PartialAnnotation.content :=
                        Some (body ++ flat_map (fun l => LF :: cleanLine l) lines);
                      PartialAnnotation.isMultiLine :=
                        Some match lines with
                             | [] => flag
                             | _ :: _ => true
                             end |} |}.
Proof.
  intros Hon. induction 1 as [|l lines Hl Hlines IH]; intros pushed tag body flag.
  - simpl. rewrite app_nil_r. reflexivity.
  - simpl forOf. unfold parseLine at 1.
    rewrite (isTagLine_false config l Hl). simpl. rewrite Hon. simpl.
    rewrite IH. rewrite <- app_assoc. simpl.
    destruct lines; reflexivity.
Qed.

(** X6: with continuation on, a tag line followed by lines that are not
    tag lines gives at most one annotation: its content is the trimmed
    remainder of the tag line with every following line appended, cleaned,
    behind a line break, the whole trimmed; it is flagged multi-line
    exactly when a line follows the tag line; and it is left out when
    the content is empty before that last trim. *)
Theorem parse_tag_line_with_continuation
        (config : AnnotationConfig) (comments tagLine : jsstring)
        (continuation : list jsstring) :
  multiLineSupport config = true ->
  split LF comments = tagLine :: continuation ->
  Forall (fun l => isTagLine config l = false) continuation ->
  parse config comments = Ok (blockAnnotation config tagLine continuation).
Proof.
  intros Hon Hsplit Hcont. unfold parse, blockAnnotation. rewrite Hsplit.
  simpl forOf. unfold parseLine at 1.
  destruct (findAnnotationType config (cleanLine tagLine)) as [tag|] eqn:F.
  - simpl. rewrite (forOf_continuation config continuation Hon Hcont). simpl.
    unfold pushCurrent. simpl.
    apply findAnnotationType_Some in F. destruct F as (_ & _ & ->). simpl.
    destruct (truthy _); reflexivity.
  - simpl. rewrite (forOf_idle config continuation initialState Hcont eq_refl).
    reflexivity.
Qed.

Lemma parse_tag_line_with_continuation_witness :
  parse testConfig
        (js " * @param a first" ++ LF :: js " *   second" ++ LF ::
         js " * @unsupported third")
  = Ok (blockAnnotation testConfig (js " * @param a first")
                        [js " *   second"; js " * @unsupported third"]).
Proof.
  apply (parse_tag_line_with_continuation testConfig).
  - reflexivity.
  - reflexivity.
  - vm_compute. repeat constructor.
Defined.

Example blockAnnotation_folds_unsupported_tag :
  blockAnnotation testConfig (js " * @param a first")
                  [js " *   second"; js " * @unsupported third"]
  = [ {| type := js "@param";
         content := js "a first" ++ LF :: js "second" ++ LF ::
                    js "@unsupported third";
         isMultiLine := true |} ].
Proof. vm_compute. reflexivity. Qed.

(* ================================================================== *)
(** ** The cleaning step *)
(* ================================================================== *)

Lemma isWhiteSpace_isDecoration (c : char) :
  isWhiteSpace c = true -> isDecoration c = true.
Proof. intros H. unfold isDecoration. rewrite H. apply orb_true_r. Qed.

Lemma allOf_weaken (p q : char -> bool) (s : jsstring) :
  (forall c, p c = true -> q c = true) -> allOf p s -> allOf q s.
Proof.
  intros Hpq H. unfold allOf in *. rewrite Forall_forall in *.
  intros c Hc. apply Hpq, H, Hc.
Qed.

Lemma dropWhile_all (p : char -> bool) (a b : jsstring) :
  allOf p a -> dropWhile p (a ++ b) = dropWhile p b.
Proof.
  induction 1 as [|c a Hc _ IH]; simpl; [reflexivity|].
  rewrite Hc. exact IH.
Qed.

Lemma dropWhileEnd_all (p : char -> bool) (a b : jsstring) :
  allOf p b -> dropWhileEnd p (a ++ b) = dropWhileEnd p a.
Proof.
  intros Hb. unfold dropWhileEnd. rewrite rev_app_distr.
  rewrite dropWhile_all; [reflexivity|].
  unfold allOf. apply Forall_rev. exact Hb.
Qed.

Lemma dropWhile_fixed (p : char -> bool) (s : jsstring) :
  (forall c rest, s = c :: rest -> p c = false) -> dropWhile p s = s.
Proof.
  destruct s as [|c s]; intros H; simpl; [reflexivity|].
  rewrite (H c s eq_refl). reflexivity.
Qed.

Lemma dropWhileEnd_fixed (p : char -> bool) (s : jsstring) :
  (forall front c, s = front ++ [c] -> p c = false) -> dropWhileEnd p s = s.
Proof.
  intros H. unfold dropWhileEnd. rewrite dropWhile_fixed.
  - apply rev_involutive.
  - intros c rest E. apply (H (rev rest) c).
    rewrite <- (rev_involutive s), E. reflexivity.
Qed.

Lemma dropWhile_weaker (p q : char -> bool) (s : jsstring) :
  (forall c, p c = true -> q c = true) ->
  dropWhile q (dropWhile p s) = dropWhile q s.
Proof.
  intros Hpq. induction s as [|c s IH]; simpl; [reflexivity|].
  destruct (p c) eqn:E.
  - rewrite (Hpq c E). exact IH.
  - reflexivity.
Qed.

Lemma dropWhile_dropWhileEnd_comm (p q : char -> bool) (s : jsstring) :
  (forall c, p c = true -> q c = true) ->
  dropWhile q (dropWhileEnd p s) = dropWhileEnd p (dropWhile q s).
Proof.
  intros Hpq. induction s as [|c s IH]; [reflexivity|].
  rewrite dropWhileEnd_cons. simpl dropWhile at 2.
  destruct (q c) eqn:Q.
  - rewrite <- IH. destruct (dropWhileEnd p s) as [|d r].
    + destruct (p c); simpl; rewrite ?Q; reflexivity.
    + simpl. rewrite Q. reflexivity.
  - rewrite dropWhileEnd_cons.
    assert (P : p c = false).
    { destruct (p c) eqn:P; [|reflexivity]. rewrite (Hpq c P) in Q. discriminate. }
    rewrite P. destruct (dropWhileEnd p s); simpl; rewrite Q; reflexivity.
Qed.

(** The cleaning step, read from the outside in: strip the decoration
    in front, the white space behind, then the closer. *)
Lemma cleanLine_alt (line : jsstring) :
  cleanLine line
  = stripBlockCloser (dropWhileEnd isWhiteSpace (dropWhile isDecoration line)).
Proof.
  unfold cleanLine, stripLeadingDecoration, trim. f_equal.
  rewrite (dropWhile_dropWhileEnd_comm isWhiteSpace isDecoration _
             isWhiteSpace_isDecoration).
  rewrite (dropWhile_weaker isWhiteSpace isDecoration _ isWhiteSpace_isDecoration).
  reflexivity.
Qed.

Lemma cleanLine_strip_around (front line back : jsstring) :
  allOf isDecoration front ->
  allOf isWhiteSpace back ->
  cleanLine (front ++ line ++ back) = cleanLine line.
Proof.
  intros Hfront Hback. rewrite !cleanLine_alt. f_equal.
  rewrite (dropWhile_all isDecoration front _ Hfront), dropWhile_app.
  destruct (dropWhile isDecoration line) as [|c r].
  - rewrite <- (app_nil_r back), dropWhile_all; [reflexivity|].
    apply (allOf_weaken isWhiteSpace isDecoration back
             isWhiteSpace_isDecoration Hback).
  - apply dropWhileEnd_all, Hback.
Qed.

(** X8: what stands in front of the text of a line (any run of ['/'],
    ['*'] and white space) and the white space behind it make no
    difference to the cleaned line. *)
Theorem cleanLine_ignores_decoration (front line back : jsstring) :
  allOf isDecoration front ->
  allOf isWhiteSpace back ->
  cleanLine (front ++ line ++ back) = cleanLine line.
Proof. exact (cleanLine_strip_around front line back). Qed.

Lemma cleanLine_ignores_decoration_witness :
  cleanLine (js "   * /" ++ js "@param a" ++ js "  ") = cleanLine (js "@param a").
Proof.
  apply (cleanLine_ignores_decoration (js "   * /") (js "@param a") (js "  ")).
  - vm_compute. repeat constructor.
  - vm_compute. repeat constructor.
Defined.

Lemma dropWhile_decompose (p : char -> bool) (s : jsstring) :
  exists t, s = t ++ dropWhile p s.
Proof.
  induction s as [|c s [t IH]]; simpl.
  - exists []. reflexivity.
  - destruct (p c).
    + exists (c :: t). simpl. f_equal. exact IH.
    + exists []. reflexivity.
Qed.

Lemma dropWhileEnd_prefix (p : char -> bool) (s : jsstring) :
  exists t, s = dropWhileEnd p s ++ t.
Proof.
  destruct (dropWhile_decompose p (rev s)) as [t E].
  exists (rev t). unfold dropWhileEnd. rewrite <- rev_app_distr, <- E.
  symmetry. apply rev_involutive.
Qed.

Lemma stripBlockCloser_prefix (s : jsstring) :
  exists t, s = stripBlockCloser s ++ t.
Proof.
  unfold stripBlockCloser.
  destruct (rev s) as [|c1 [|c2 r]] eqn:E;
    try (exists []; rewrite app_nil_r; reflexivity).
  destruct ((c1 =? SLASH)%N && (c2 =? STAR)%N);
    [|exists []; rewrite app_nil_r; reflexivity].
  destruct (dropWhile_decompose isWhiteSpace r) as [t Ht].
  exists (rev t ++ [c2; c1]).
  rewrite <- (rev_involutive s), E. simpl.
  rewrite Ht at 1. rewrite rev_app_distr, <- !app_assoc. reflexivity.
Qed.

Lemma cleanLine_head (line : jsstring) (c : char) (rest : jsstring) :
  cleanLine line = c :: rest -> isDecoration c = false.
Proof.
  rewrite cleanLine_alt. intros H.
  destruct (stripBlockCloser_prefix
              (dropWhileEnd isWhiteSpace (dropWhile isDecoration line))) as [t1 E1].
  destruct (dropWhileEnd_prefix isWhiteSpace (dropWhile isDecoration line))
    as [t2 E2].
  rewrite E1, H in E2. simpl in E2.
  apply (dropWhile_head isDecoration line c _ E2).
Qed.

Lemma startsWith_head (c d : char) (s t : jsstring) :
  startsWith (c :: s) (d :: t) = true -> d = c.
Proof.
  simpl. intros H. apply andb_true_iff in H. destruct H as [H _].
  apply N.eqb_eq in H. exact H.
Qed.

(** X9: a configured tag that begins with ['/'], ['*'] or a white-space
    character is never matched, whatever the line: the cleaning step has
    removed such characters from the front of the line before the tags
    are tried. *)
Theorem decorated_tag_never_matches
        (config : AnnotationConfig) (line : jsstring) (c : char) (rest : jsstring) :
  isDecoration c = true ->
  findAnnotationType config (cleanLine line) <> Some (c :: rest).
Proof.
  intros Hc F. apply findAnnotationType_Some in F. destruct F as (_ & F & _).
  destruct (cleanLine line) as [|d s] eqn:E; [discriminate|].
  apply startsWith_head in F. subst d.
  rewrite (cleanLine_head line c s E) in Hc. discriminate.
Qed.

Lemma decorated_tag_never_matches_witness :
  findAnnotationType
    {| supportedAnnotations := [js "*todo"];
       multiLineSupport := true;
       encoding := None |}
    (cleanLine (js " * *todo write tests"))
  <> Some (STAR :: js "todo").
Proof.
  apply (decorated_tag_never_matches
           {| supportedAnnotations := [js "*todo"];
              multiLineSupport := true;
              encoding := None |}
           (js " * *todo write tests") STAR (js "todo")).
  reflexivity.
Defined.

(** X10: a line made of decoration, a plain text, optional white space,
    the closer ["*/"] and trailing white space is cleaned to the plain
    text: the text of a one-line block comment comes out exactly. *)
Theorem cleanLine_one_line_block (front text gap back : jsstring) :
  allOf isDecoration front ->
  plainText text ->
  allOf isWhiteSpace gap ->
  allOf isWhiteSpace back ->
  cleanLine (front ++ (text ++ gap ++ js "*/") ++ back) = text.
Proof.
  intros Hfront [Hhead Hlast] Hgap Hback.
  rewrite (cleanLine_strip_around front _ back Hfront Hback).
  rewrite cleanLine_alt.
  destruct text as [|c text].
  - simpl app. rewrite dropWhile_all; [reflexivity|].
    apply (allOf_weaken isWhiteSpace isDecoration gap
             isWhiteSpace_isDecoration Hgap).
  - rewrite (dropWhile_fixed isDecoration ((c :: text) ++ gap ++ js "*/")).
    2:{ intros d rest [= <- _]. apply (Hhead c text eq_refl). }
    rewrite (dropWhileEnd_fixed isWhiteSpace ((c :: text) ++ gap ++ js "*/")).
    2:{ intros fr d E.
        change (js "*/") with ([STAR] ++ [SLASH]) in E.
        rewrite !app_assoc in E. apply app_inj_tail in E.
        destruct E as [_ <-]. reflexivity. }
    unfold stripBlockCloser.
    change (js "*/") with ([STAR] ++ [SLASH]).
    rewrite !rev_app_distr. simpl app at 1. simpl app at 1.
    change ((SLASH =? SLASH)%N && (STAR =? STAR)%N) with true. cbv iota.
    rewrite dropWhile_all by (apply Forall_rev, Hgap).
    apply (dropWhileEnd_fixed isWhiteSpace (c :: text) Hlast).
Qed.

Lemma cleanLine_one_line_block_witness :
  cleanLine (js "/** " ++ (js "@param name desc" ++ js " " ++ js "*/") ++ js " ")
  = js "@param name desc".
Proof.
  apply (cleanLine_one_line_block (js "/** ") (js "@param name desc")
           (js " ") (js " ")).
  - vm_compute. repeat constructor.
  - split.
    + intros c rest [= <- _]. reflexivity.
    + intros front c E.
      change (js "@param name desc") with (js "@param name des" ++ [99%N]) in E.
      apply app_inj_tail in E. destruct E as [_ <-]. reflexivity.
  - vm_compute. repeat constructor.
  - vm_compute. repeat constructor.
Defined.

(* ================================================================== *)
(** ** An empty string among the tags *)
(* ================================================================== *)

Lemma find_app {A : Type} (f : A -> bool) (a b : list A) :
  find f (a ++ b)
  = match find f a with
    | Some x => Some x
    | None => find f b
    end.
Proof.
  induction a as [|x a IH]; simpl; [reflexivity|].
  destruct (f x); [reflexivity | exact IH].
Qed.

(** X11: an empty string in the configured list disables every tag
    listed after it: matching goes as if the list ended before it. *)
Theorem empty_tag_masks_later_tags
        (config : AnnotationConfig) (before after : list jsstring)
        (line : jsstring) :
  supportedAnnotations config = before ++ [] :: after ->
  findAnnotationType config line
  = findAnnotationType (withTags config before) line.
Proof.
  intros Htags. unfold findAnnotationType, withTags. simpl.
  rewrite Htags, find_app.
  destruct (find (fun annotation => startsWith line annotation) before);
    [reflexivity|].
  simpl. destruct line; reflexivity.
Qed.

Lemma empty_tag_masks_later_tags_witness :
  findAnnotationType
    {| supportedAnnotations := [js "@param"; []; js "@returns"];
       multiLineSupport := true;
       encoding := None |}
    (js "@returns x")
  = findAnnotationType
      (withTags {| supportedAnnotations := [js "@param"; []; js "@returns"];
                   multiLineSupport := true;
                   encoding := None |}
                [js "@param"])
      (js "@returns x").
Proof.
  apply (empty_tag_masks_later_tags
           {| supportedAnnotations := [js "@param"; []; js "@returns"];
              multiLineSupport := true;
              encoding := None |}
           [js "@param"] [js "@returns"] (js "@returns x")).
  reflexivity.
Defined.

(* ================================================================== *)
(** ** From the leading comments to the annotations of a function *)
(* ================================================================== *)

Lemma split_join (sep : char) (parts : list jsstring) :
  parts <> [] ->
  split sep (join [sep] parts) = flat_map (split sep) parts.
Proof.
  induction parts as [|p parts IH]; intros Hne; [contradiction|].
  destruct parts as [|q parts].
  - simpl. rewrite app_nil_r. reflexivity.
  - change (join [sep] (p :: q :: parts)) with (p ++ sep :: join [sep] (q :: parts)).
    rewrite split_app_sep, IH by discriminate. reflexivity.
Qed.

Section Pipeline.

Context {compiler : ts.Compiler}.

Variable this : PartialConfig.t.
Variable sourceFile : ts.SourceFile.

Import TypeScriptParser.

(** X12: when several comments precede a declaration, the parser reads
    their lines one comment after the other, as one sequence: an
    annotation left open at the end of a comment goes on in the next. *)
Theorem leading_comments_are_read_as_one
        (text : jsstring) (position : nat) (ranges : list ts.CommentRange) :
  ts.getLeadingCommentRanges text position = Some ranges ->
  ranges <> [] ->
  split LF (getLeadingComments text position)
  = flat_map (fun comment =>
                split LF (substring (ts.pos comment) (ts.end_ comment) text))
             ranges.
Proof.
  intros Hranges Hne. unfold getLeadingComments. rewrite Hranges.
  rewrite split_join.
  - rewrite flat_map_concat_map, map_map, <- flat_map_concat_map. reflexivity.
  - destruct ranges; [contradiction | discriminate].
Qed.

Lemma parseAnnotations_sound (comments : jsstring)
      (anns : list AnnotationMetadata) :
  parseAnnotations this comments = Ok anns ->
  Forall (fun a => configuredTag (AnnotationParser.new this) a
                   /\ trimmed (content a)) anns.
Proof.
  unfold parseAnnotations. destruct (truthy comments).
  - intros H.
    destruct (parse_sound (AnnotationParser.new this) comments) as (anns' & E & Hall).
    rewrite H in E. injection E as <-. exact Hall.
  - intros [= <-]. constructor.
Qed.

Lemma located_annotations (node : ts.Node) (fm : FunctionMetadata) :
  located this sourceFile node fm ->
  parseAnnotations this
    (getLeadingComments (ts.getFullText sourceFile) (ts.getFullStart node))
  = Ok (annotations fm).
Proof.
  unfold located, processFunctionDeclaration.
  destruct (ts.name node) as [nodeName|]; [|discriminate].
  destruct (parseAnnotations this _) as [anns|e]; simpl; [|discriminate].
  intros [= <-]. reflexivity.
Qed.

Lemma extractFunctions_sound :
  exists functions,
    extractFunctions this sourceFile = Ok functions
    /\ Forall (fun fm =>
                 Forall (fun a => configuredTag (AnnotationParser.new this) a
                                  /\ trimmed (content a))
                        (annotations fm))
              functions.
Proof.
  destruct (extractFunctions_documentOrder this sourceFile)
    as (functions & E & Hall).
  exists functions. split; [exact E|].
  apply Forall_forall. intros fm Hfm.
  destruct (Forall2_In_right _ _ _ fm Hall Hfm) as (node & _ & Hloc).
  apply (parseAnnotations_sound _ _ (located_annotations node fm Hloc)).
Qed.

(** X13: in the output of [extractFunctions], every annotation of every
    function carries a non-empty tag of the configuration the parser
    object was built with, and a content without white space at either
    end. *)
Theorem extractFunctions_annotations_sound :
  exists functions,
    extractFunctions this sourceFile = Ok functions
    /\ Forall (fun fm =>
                 Forall (fun a => configuredTag (AnnotationParser.new this) a
                                  /\ trimmed (content a))
                        (annotations fm))
              functions.
Proof. exact extractFunctions_sound. Qed.

End Pipeline.

Lemma no_configuredTag_without_tags (config : AnnotationConfig)
      (anns : list AnnotationMetadata) :
  supportedAnnotations config = [] ->
  Forall (fun a => configuredTag config a /\ trimmed (content a)) anns ->
  anns = [].
Proof.
  intros Hnone Hall. destruct anns as [|a anns]; [reflexivity|].
  inversion Hall as [|? ? [[Hin _] _] _]. rewrite Hnone in Hin. contradiction.
Qed.

(** X14: the tags fall back to the default ones only when the caller
    leaves the key out; a caller that passes [undefined] for them (or an
    empty list) gets a parser that finds every named function and no
    annotation. *)
Theorem no_tags_no_annotations
        (compiler : ts.Compiler) (config : PartialConfig.t)
        (sourceFile : ts.SourceFile) :
  PartialConfig.supportedAnnotations config = Undefined
  \/ PartialConfig.supportedAnnotations config = Present [] ->
  exists functions,
    TypeScriptParser.extractFunctions (TypeScriptParser.new config) sourceFile
    = Ok functions
    /\ Forall2 (located (TypeScriptParser.new config) sourceFile)
               (documentOrder sourceFile) functions
    /\ Forall (fun fm => annotations fm = []) functions.
Proof.
  intros Htags.
  destruct (extractFunctions_documentOrder (TypeScriptParser.new config) sourceFile)
    as (functions & E & Hall).
  exists functions. split; [exact E|]. split; [exact Hall|].
  destruct (extractFunctions_sound (TypeScriptParser.new config) sourceFile)
    as (functions' & E' & Hsound).
  rewrite E in E'. injection E' as <-.
  rewrite Forall_forall in Hsound |- *. intros fm Hfm.
  apply (no_configuredTag_without_tags
           (AnnotationParser.new (TypeScriptParser.new config))).
  - destruct Htags as [H|H]; unfold AnnotationParser.new, TypeScriptParser.new;
      simpl; rewrite H; reflexivity.
  - apply Hsound, Hfm.
Qed.

Lemma leading_comments_are_read_as_one_witness :
  split LF (TypeScriptParser.getLeadingComments (compiler := lineCommentsCompiler)
              lineCommentsText 0)
  = flat_map (fun comment =>
                split LF (substring (ts.pos comment) (ts.end_ comment)
                                    lineCommentsText))
             [ {| ts.pos := 0; ts.end_ := 13 |};
               {| ts.pos := 14; ts.end_ := 21 |} ].
Proof.
  apply (leading_comments_are_read_as_one (compiler := lineCommentsCompiler)
           lineCommentsText 0
           [ {| ts.pos := 0; ts.end_ := 13 |};
             {| ts.pos := 14; ts.end_ := 21 |} ]).
  - reflexivity.
  - discriminate.
Defined.

Lemma no_tags_no_annotations_witness :
  exists functions,
    TypeScriptParser.extractFunctions (compiler := sampleCompiler)
      undefinedTagsParser sampleFile
    = Ok functions
    /\ Forall2 (located (compiler := sampleCompiler) undefinedTagsParser sampleFile)
               (documentOrder sampleFile) functions
    /\ Forall (fun fm => annotations fm = []) functions.
Proof.
  apply (no_tags_no_annotations sampleCompiler
           {| PartialConfig.supportedAnnotations := Undefined;
              PartialConfig.multiLineSupport := Absent;
              PartialConfig.encoding := Absent |}
           sampleFile).
  left. reflexivity.
Defined.

Example extract_lineComments :
  TypeScriptParser.extractFunctions (compiler := lineCommentsCompiler)
    sampleParser lineCommentsFile
  = Ok [ {| name := js "f";
            annotations := [ {| type := js "@param";
                                content := js "a x" ++ LF :: js "more";
                                isMultiLine := true |} ];
            location := {| line := 3; column := 1 |} |} ].
Proof. vm_compute. reflexivity. Qed.

(* ================================================================== *)
(** ** The driver *)
(* ================================================================== *)

Section DriverFacts.

Context {compiler : ts.Compiler} {host : Host}.

Variable this : PartialConfig.t.

(** X15: once the file is read, decoded and turned into a tree, and
    provided the engine's call stack holds the recursion over that tree,
    the driver succeeds: it resolves to the records of the named function
    declarations of the tree in document order. *)
Theorem parseFunctionSignatures_resolves
        (filePath : jsstring) (buffer : Buffer) (fileContent : jsstring)
        (sourceFile : ts.SourceFile) :
  readFileAsync filePath = Resolved buffer ->
  bufferToString buffer (configuredEncoding this) = Resolved fileContent ->
  tsCreateSourceFile filePath fileContent = Resolved sourceFile ->
  callStackHolds sourceFile = true ->
  exists functions,
    parseFunctionSignatures this filePath = Resolved functions
    /\ Forall2 (located this sourceFile) (documentOrder sourceFile) functions.
Proof.
  intros Hread Hdecode Htree Hstack.
  destruct (extractFunctions_documentOrder this sourceFile)
    as (functions & E & Hall).
  exists functions. split; [|exact Hall].
  unfold parseFunctionSignatures, readFile, createSourceFile, callExtractFunctions.
  rewrite Hread. simpl. rewrite Hdecode. simpl. rewrite Htree. simpl.
  rewrite Hstack, E. reflexivity.
Qed.

(** X16: whatever makes the driver fail, the caller gets a
    [ParserError] whose message names the path and whose cause is what
    was caught; and what was caught comes from reading the file, from
    building the tree, or from the engine running out of call stack in
    the recursion of [extractFunctions]: the extraction raises nothing
    of its own. *)
Theorem parseFunctionSignatures_rejects_with_ParserError
        (filePath : jsstring) (thrown : Thrown) :
  parseFunctionSignatures this filePath = Rejected thrown ->
  exists origin,
    thrown = ErrorInstance (ParserError (parseFailedMessage filePath)
                                        (instanceofError origin))
    /\ (readFile this filePath = Rejected origin
        \/ (exists fileContent,
               readFile this filePath = Resolved fileContent
               /\ createSourceFile filePath fileContent = Rejected origin)
        \/ (exists fileContent sourceFile,
               readFile this filePath = Resolved fileContent
               /\ createSourceFile filePath fileContent = Resolved sourceFile
               /\ callStackHolds sourceFile = false
               /\ origin = ErrorInstance CallStackExceeded)).
Proof.
  unfold parseFunctionSignatures.
  destruct (readFile this filePath) as [fileContent|origin] eqn:Hread; simpl.
  - destruct (createSourceFile filePath fileContent) as [sourceFile|origin]
      eqn:Htree; simpl.
    + unfold callExtractFunctions.
      destruct (callStackHolds sourceFile) eqn:Hstack.
      * destruct (extractFunctions_documentOrder this sourceFile)
          as (functions & E & _).
        rewrite E. simpl. discriminate.
      * simpl. intros [= <-]. exists (ErrorInstance CallStackExceeded).
        split; [reflexivity|]. right. right.
        exists fileContent, sourceFile. auto.
    + intros [= <-]. exists origin. split; [reflexivity|].
      right. left. exists fileContent. auto.
  - intros [= <-]. exists origin. split; [reflexivity|]. left. reflexivity.
Qed.

(** X17: when the file cannot be read or decoded, the error the caller
    gets is wrapped twice: its cause is the [ParserError] of [readFile],
    and the error of the host is the cause of that one (when it is an
    [Error] object at all). *)
Theorem parseFunctionSignatures_wraps_read_failure_twice
        (filePath : jsstring) (origin : Thrown) :
  readFileAsync filePath = Rejected origin
  \/ (exists buffer,
         readFileAsync filePath = Resolved buffer
         /\ bufferToString buffer (configuredEncoding this) = Rejected origin) ->
  parseFunctionSignatures this filePath
  = Rejected
      (ErrorInstance
         (ParserError (parseFailedMessage filePath)
            (Some (ParserError (readFailedMessage filePath)
                               (instanceofError origin))))).
Proof.
  intros [Hread|(buffer & Hread & Hdecode)];
    unfold parseFunctionSignatures, readFile; rewrite Hread; simpl;
    [|rewrite Hdecode]; reflexivity.
Qed.

End DriverFacts.

Lemma parseFunctionSignatures_resolves_witness :
  exists functions,
    parseFunctionSignatures (compiler := sampleCompiler) (host := sampleHost)
      sampleParser (js "sample.ts")
    = Resolved functions
    /\ Forall2 (located (compiler := sampleCompiler) sampleParser sampleFile)
               (documentOrder sampleFile) functions.
Proof.
  apply (parseFunctionSignatures_resolves
           (compiler := sampleCompiler) (host := sampleHost)
           sampleParser (js "sample.ts") sampleText sampleText sampleFile).
  - reflexivity.
  - reflexivity.
  - reflexivity.
  - reflexivity.
Defined.

Lemma parseFunctionSignatures_rejects_with_ParserError_witness :
  exists origin,
    ErrorInstance
      (ParserError (parseFailedMessage (js "sample.ts")) (Some CallStackExceeded))
    = ErrorInstance (ParserError (parseFailedMessage (js "sample.ts"))
                                 (instanceofError origin))
    /\ (readFile (host := smallStackHost) sampleParser (js "sample.ts")
        = Rejected origin
        \/ (exists fileContent,
               readFile (host := smallStackHost) sampleParser (js "sample.ts")
               = Resolved fileContent
               /\ createSourceFile (host := smallStackHost) (js "sample.ts")
                                   fileContent
                  = Rejected origin)
        \/ (exists fileContent sourceFile,
               readFile (host := smallStackHost) sampleParser (js "sample.ts")
               = Resolved fileContent
               /\ createSourceFile (host := smallStackHost) (js "sample.ts")
                                   fileContent
                  = Resolved sourceFile
               /\ callStackHolds (Host := smallStackHost) sourceFile = false
               /\ origin = ErrorInstance CallStackExceeded)).
Proof.
  apply (parseFunctionSignatures_rejects_with_ParserError
           (compiler := sampleCompiler) (host := smallStackHost)
           sampleParser (js "sample.ts")).
  reflexivity.
Defined.

Example parseFunctionSignatures_missing_file :
  parseFunctionSignatures (compiler := sampleCompiler) (host := sampleHost)
    sampleParser (js "missing.ts")
  = Rejected
      (ErrorInstance
         (ParserError (parseFailedMessage (js "missing.ts"))
            (Some (ParserError (readFailedMessage (js "missing.ts"))
                               (Some (HostError (js "ENOENT"))))))).
Proof. reflexivity. Qed.

Lemma parseFunctionSignatures_wraps_read_failure_twice_witness :
  parseFunctionSignatures (compiler := sampleCompiler) (host := sampleHost)
    sampleParser (js "missing.ts")
  = Rejected
      (ErrorInstance
         (ParserError (parseFailedMessage (js "missing.ts"))
            (Some (ParserError (readFailedMessage (js "missing.ts"))
                               (instanceofError
                                  (ErrorInstance (HostError (js "ENOENT")))))))).
Proof.
  apply (parseFunctionSignatures_wraps_read_failure_twice
           (compiler := sampleCompiler) (host := sampleHost)
           sampleParser (js "missing.ts")
           (ErrorInstance (HostError (js "ENOENT")))).
  left. reflexivity.
Defined.

(* ================================================================== *)
(** ** The earlier script *)
(* ================================================================== *)

Example V1_extractAnnotations_sample :
  V1.extractAnnotations
    (js "/**" ++ LF :: js " * Adds." ++ LF :: js " * @param a x" ++ LF ::
     js " *   more" ++ LF :: js " * @returns y" ++ LF :: js " */")
    [js "@param"; js "@returns"]
  = js "* @param a x" ++ LF :: js "*   more" ++ LF :: LF ::
    js "* @returns y" ++ LF :: js "*/" ++ [LF].
Proof. vm_compute. reflexivity. Qed.

Lemma V1_extractLine_quiet (annotations : list jsstring) (st : V1.CaptureState)
      (line : jsstring) :
  V1.mentions annotations line = false ->
  V1.capture st = false ->
  V1.extractLine annotations st line = st.
Proof.
  unfold V1.mentions, V1.extractLine. intros -> Hoff. rewrite Hoff. reflexivity.
Qed.

Lemma V1_fold_quiet (annotations : list jsstring) (lines : list jsstring)
      (st : V1.CaptureState) :
  Forall (fun l => V1.mentions annotations l = false) lines ->
  V1.capture st = false ->
  fold_left (V1.extractLine annotations) lines st = st.
Proof.
  induction 1 as [|l lines Hl _ IH]; intros Hoff; simpl; [reflexivity|].
  rewrite (V1_extractLine_quiet annotations st l Hl Hoff). apply IH, Hoff.
Qed.


Lemma V1_extractLine_capturing (annotations : list jsstring)
      (st : V1.CaptureState) (line : jsstring) :
  V1.capture st = true \/ V1.mentions annotations line = true ->
  V1.capture (V1.extractLine annotations st line) = true
  /\ V1.currentAnnotation (V1.extractLine annotations st line) <> [].
Proof.
  unfold V1.mentions, V1.extractLine. intros H.
  destruct (existsb _ annotations) eqn:M.
  - destruct (V1.capture st); simpl; split; try reflexivity; ends_with_LF.
  - destruct H as [H|H]; [|discriminate]. rewrite H. simpl.
    split; [reflexivity | ends_with_LF].
Qed.

Lemma V1_fold_capturing (annotations : list jsstring) (lines : list jsstring) :
  forall st,
    (V1.capture st = true /\ V1.currentAnnotation st <> [])
    \/ Exists (fun l => V1.mentions annotations l = true) lines ->
    V1.capture (fold_left (V1.extractLine annotations) lines st) = true
    /\ V1.currentAnnotation (fold_left (V1.extractLine annotations) lines st) <> [].
Proof.
  induction lines as [|l lines IH]; intros st H; simpl.
  - destruct H as [H|H]; [exact H | inversion H].
  - apply IH. destruct H as [[H _]|H].
    + left. apply V1_extractLine_capturing. left. exact H.
    + inversion H as [? ? Hl|? ? Hlines]; subst.
      * left. apply V1_extractLine_capturing. right. exact Hl.
      * right. exact Hlines.
Qed.

Lemma join_last_nonempty (sep : jsstring) (parts : list jsstring) (last : jsstring) :
  last <> [] -> join sep (parts ++ [last]) <> [].
Proof.
  intros Hlast. induction parts as [|p parts IH]; simpl; [exact Hlast|].
  destruct (parts ++ [last]) as [|q rest] eqn:E.
  - destruct parts; discriminate.
  - intros H. apply app_eq_nil in H. destruct H as [_ H].
    apply app_eq_nil in H. destruct H as [_ H]. apply IH, H.
Qed.

(** X18: [extractAnnotations] returns the empty string exactly when no
    line of the comment holds one of the tags. *)
Theorem V1_extractAnnotations_empty_iff
        (comments : jsstring) (annotations : list jsstring) :
  V1.extractAnnotations comments annotations = []
  <-> Forall (fun l => V1.mentions annotations l = false) (split LF comments).
Proof.
  unfold V1.extractAnnotations. split.
  - intros H. apply Forall_forall. intros l Hl.
    destruct (V1.mentions annotations l) eqn:M; [|reflexivity].
    exfalso.
    destruct (V1_fold_capturing annotations (split LF comments) V1.initialState)
      as [Hcap Hcur].
    { right. apply Exists_exists. exists l. auto. }
    rewrite Hcap in H.
    destruct (V1.currentAnnotation _) as [|c cur] eqn:E; [contradiction|].
    simpl in H. apply (join_last_nonempty [LF] _ (c :: cur)) in H;
      [exact H | discriminate].
  - intros H.
    rewrite (V1_fold_quiet annotations (split LF comments) V1.initialState H eq_refl).
    reflexivity.
Qed.

(** X19: in [extractAnnotations], the lines before the first line that
    holds a tag are dropped. *)
Theorem V1_extractAnnotations_ignores_leading_prose
        (prose rest : jsstring) (annotations : list jsstring) :
  Forall (fun l => V1.mentions annotations l = false) (split LF prose) ->
  V1.extractAnnotations (prose ++ LF :: rest) annotations
  = V1.extractAnnotations rest annotations.
Proof.
  intros H. unfold V1.extractAnnotations.
  rewrite split_app_sep, fold_left_app.
  rewrite (V1_fold_quiet annotations (split LF prose) V1.initialState H eq_refl).
  reflexivity.
Qed.

Lemma V1_extractAnnotations_ignores_leading_prose_witness :
  V1.extractAnnotations
    ((js "/**" ++ LF :: js " * Adds.") ++ LF :: js " * @param a x")
    [js "@param"; js "@returns"]
  = V1.extractAnnotations (js " * @param a x") [js "@param"; js "@returns"].
Proof.
  apply (V1_extractAnnotations_ignores_leading_prose
           (js "/**" ++ LF :: js " * Adds.") (js " * @param a x")
           [js "@param"; js "@returns"]).
  vm_compute. repeat constructor.
Defined.

Lemma V1_fold_block (annotations : list jsstring) (lines : list jsstring) :
  Forall (fun l => V1.mentions annotations l = false) lines ->
  forall pushed current,
    fold_left (V1.extractLine annotations) lines
              {| V1.result := pushed; V1.capture := true;
                 V1.currentAnnotation := current |}
    = {| V1.result := pushed; V1.capture := true;
         V1.currentAnnotation :=
           current ++ flat_map (fun l => trim l ++ [LF]) lines |}.
Proof.
  induction 1 as [|l lines Hl _ IH]; intros pushed current; simpl.
  - rewrite app_nil_r. reflexivity.
  - unfold V1.extractLine at 2. unfold V1.mentions in Hl. rewrite Hl. simpl.
    rewrite IH, <- !app_assoc. reflexivity.
Qed.

(** X20: when the first line of the comment holds a tag and no other
    line does, [extractAnnotations] returns every line of the comment,
    trimmed (and nothing else stripped) and followed by a line break. *)
Theorem V1_extractAnnotations_single_block
        (comments first : jsstring) (others : list jsstring)
        (annotations : list jsstring) :
  split LF comments = first :: others ->
  V1.mentions annotations first = true ->
  Forall (fun l => V1.mentions annotations l = false) others ->
  V1.extractAnnotations comments annotations
  = flat_map (fun l => trim l ++ [LF]) (first :: others).
Proof.
  intros Hsplit Hfirst Hothers. unfold V1.extractAnnotations. rewrite Hsplit.
  assert (E0 : V1.extractLine annotations V1.initialState first
               = {| V1.result := []; V1.capture := true;
                    V1.currentAnnotation := trim first ++ [LF] |}).
  { unfold V1.extractLine. unfold V1.mentions in Hfirst. rewrite Hfirst.
    reflexivity. }
  simpl fold_left. rewrite E0, (V1_fold_block annotations others Hothers).
  simpl. rewrite <- app_assoc.
  destruct (trim first ++ [LF] ++ flat_map (fun l => trim l ++ [LF]) others)
    as [|c s] eqn:E.
  - exfalso. destruct (trim first); discriminate.
  - reflexivity.
Qed.

Lemma V1_extractAnnotations_single_block_witness :
  V1.extractAnnotations (js " * @param a x" ++ LF :: js " *   more")
                        [js "@param"; js "@returns"]
  = flat_map (fun l => trim l ++ [LF]) [js " * @param a x"; js " *   more"].
Proof.
  apply (V1_extractAnnotations_single_block
           (js " * @param a x" ++ LF :: js " *   more")
           (js " * @param a x") [js " *   more"] [js "@param"; js "@returns"]).
  - reflexivity.
  - reflexivity.
  - vm_compute. repeat constructor.
Defined.

Section V1Locator.

Context {compiler : ts.Compiler}.

Variable sourceFile : ts.SourceFile.

Lemma V1_visit_eq (node : ts.Node) (console : list jsstring) :
  V1.visit sourceFile node console
  = fold_left (fun logged child => V1.visit sourceFile child logged)
              (ts.children node)
              (console
               ++ flat_map (V1.report sourceFile)
                           (filter isNamedFunctionDeclaration [node])).
Proof.
  destruct node as [k fullStart start nm nodes].
  unfold isNamedFunctionDeclaration, V1.report. simpl.
  destruct k; simpl.
  - destruct nm as [nodeName|]; simpl.
    + f_equal.
      destruct (V1.getLeadingComments _ _) as [c|]; [destruct (truthy c)|];
        rewrite <- ?app_assoc; reflexivity.
    + rewrite app_nil_r. reflexivity.
  - rewrite app_nil_r. reflexivity.
Qed.

Lemma V1_fold_visit (nodes : list ts.Node) :
  Forall (fun node =>
            forall console,
              V1.visit sourceFile node console
              = console
                ++ flat_map (V1.report sourceFile)
                            (filter isNamedFunctionDeclaration (preorder node)))
         nodes ->
  forall console,
    fold_left (fun logged child => V1.visit sourceFile child logged) nodes console
    = console
      ++ flat_map (V1.report sourceFile)
                  (filter isNamedFunctionDeclaration (flat_map preorder nodes)).
Proof.
  induction 1 as [|c nodes Hc _ IH]; intros console; simpl.
  - rewrite app_nil_r. reflexivity.
  - rewrite Hc, IH, filter_app, flat_map_app, app_assoc. reflexivity.
Qed.

Lemma V1_visit_preorder (node : ts.Node) :
  forall console,
    V1.visit sourceFile node console
    = console
      ++ flat_map (V1.report sourceFile)
                  (filter isNamedFunctionDeclaration (preorder node)).
Proof.
  induction node as [node IH] using Node_children_ind. intros console.
  rewrite V1_visit_eq, (V1_fold_visit (ts.children node) IH).
  rewrite preorder_eq, filter_app, flat_map_app, app_assoc. reflexivity.
Qed.

(** X21: the script prints, for each named function declaration in
    document order, its three messages (the name, the annotations or
    their absence, a separator), and nothing else. *)
Theorem V1_prints_in_document_order :
  V1.extractFunctionSignatures sourceFile
  = flat_map (V1.report sourceFile) (documentOrder sourceFile).
Proof.
  unfold V1.extractFunctionSignatures, documentOrder.
  rewrite V1_visit_preorder. reflexivity.
Qed.

End V1Locator.

Example V1_prints_sample :
  V1.extractFunctionSignatures (compiler := sampleCompiler) sampleFile
  = [ js "Function: f";
      js "Annotations:" ++ LF :: js "/** @param a x */" ++ [LF];
      js "---";
      js "Function: g"; js "Annotations: No annotations found."; js "---";
      js "Function: h"; js "Annotations: No annotations found."; js "---";
      js "Function: k"; js "Annotations: No annotations found."; js "---" ].
Proof. vm_compute. reflexivity. Qed.

(* ================================================================== *)
(** ** A tag line without a body *)
(* ================================================================== *)

Lemma parse_one_line (config : AnnotationConfig) (line : jsstring) :
  ~ In LF line ->
  parse config line = Ok (optionToList (tagLineAnnotation config line)).
Proof.
  intros Hline. unfold parse, tagLineAnnotation.
  rewrite (split_without_sep LF line Hline). simpl. unfold parseLine.
  destruct (findAnnotationType config (cleanLine line)) as [tag|] eqn:F;
    [|reflexivity].
  simpl. unfold pushCurrent. simpl.
  apply findAnnotationType_Some in F. destruct F as (_ & _ & ->). simpl.
  destruct (truthy (trim _)) eqn:T; simpl; [|reflexivity].
  rewrite trim_idem. reflexivity.
Qed.

(** X22: a tag line with nothing after its tag, directly followed by
    another tag line, leaves no trace: the result is the one of the
    text before it followed by the one of the text after it. *)
Theorem parse_drops_empty_tag_line
        (config : AnnotationConfig) (before line rest : jsstring) :
  ~ In LF line ->
  isTagLine config line = true ->
  tagLineAnnotation config line = None ->
  isTagLine config (hd [] (split LF rest)) = true ->
  exists a b,
    parse config before = Ok a
    /\ parse config rest = Ok b
    /\ parse config (before ++ LF :: line ++ LF :: rest) = Ok (a ++ b).
Proof.
  intros Hline Htag Hempty Hnext.
  destruct (parse_app_tag_line config line rest Hnext) as (m & b & Hm & Hb & Hmb).
  rewrite (parse_one_line config line Hline), Hempty in Hm. injection Hm as <-.
  assert (Hfirst : isTagLine config (hd [] (split LF (line ++ LF :: rest))) = true).
  { rewrite split_app_sep, (split_without_sep LF line Hline). exact Htag. }
  destruct (parse_app_tag_line config before (line ++ LF :: rest) Hfirst)
    as (a & b' & Ha & Hb' & Hab).
  rewrite Hmb in Hb'. injection Hb' as <-.
  exists a, b. auto.
Qed.

Lemma parse_drops_empty_tag_line_witness :
  exists a b,
    parse testConfig (js " * @param a x") = Ok a
    /\ parse testConfig (js " * @returns y") = Ok b
    /\ parse testConfig
             (js " * @param a x" ++ LF :: js " * @throws" ++ LF ::
              js " * @returns y")
       = Ok (a ++ b).
Proof.
  apply (parse_drops_empty_tag_line testConfig
           (js " * @param a x") (js " * @throws") (js " * @returns y")).
  - vm_compute. intuition discriminate.
  - reflexivity.
  - reflexivity.
  - reflexivity.
Defined.

(* ================================================================== *)
(** ** The whole result, with continuation on *)
(* ================================================================== *)

Lemma pushCurrent_closing (st : ParseState) :
  wellFormed st ->
  pushCurrent st = Ok (emitted st ++ closing (currentAnnotation st) []).
Proof.
  unfold wellFormed, pushCurrent, closing.
  destruct (currentAnnotation st) as [cur|];
    [|intros _; rewrite app_nil_r; reflexivity].
  intros (tag & body & flag & -> & Htag). simpl. rewrite Htag, app_nil_r. simpl.
  destruct (truthy body); simpl; [reflexivity | rewrite app_nil_r; reflexivity].
Qed.

Lemma forOf_blocks (config : AnnotationConfig) (lines : list jsstring) :
  multiLineSupport config = true ->
  forall st,
    wellFormed st ->
    exists st',
      forOf (parseLine config) lines st = Ok st'
      /\ pushCurrent st'
         = Ok (emitted st
               ++ closing (currentAnnotation st) (fst (group config lines))
               ++ flat_map (fun b => blockAnnotation config (fst b) (snd b))
                           (snd (group config lines))).
Proof.
  intros Hon. induction lines as [|l lines IH]; intros st Hst.
  - exists st. split; [reflexivity|]. simpl. rewrite app_nil_r.
    apply pushCurrent_closing, Hst.
  - simpl forOf. simpl group.
    destruct (group config lines) as [continuation later] eqn:G.
    unfold parseLine at 1. unfold isTagLine, blockAnnotation.
    destruct (findAnnotationType config (cleanLine l)) as [tag|] eqn:F.
    + rewrite (pushCurrent_closing st Hst). simpl bind.
      match goal with
      | |- exists st', forOf _ _ ?s = _ /\ _ =>
          destruct (IH s) as (st' & Hrun & Hpush)
      end.
      { unfold wellFormed. simpl. do 3 eexists. split; [reflexivity|].
        apply findAnnotationType_Some in F. tauto. }
      exists st'. split; [exact Hrun|]. rewrite Hpush. simpl.
      rewrite F. unfold closing. simpl.
      apply findAnnotationType_Some in F. destruct F as (_ & _ & ->). simpl.
      rewrite <- !app_assoc. reflexivity.
    + destruct (currentAnnotation st) as [cur|] eqn:C.
      * rewrite Hon. simpl bind.
        unfold wellFormed in Hst. rewrite C in Hst.
        destruct Hst as (tag & body & flag & -> & Htag).
        match goal with
        | |- exists st', forOf _ _ ?s = _ /\ _ =>
            destruct (IH s) as (st' & Hrun & Hpush)
        end.
        { unfold wellFormed. simpl. do 3 eexists. split; [reflexivity | exact Htag]. }
        exists st'. split; [exact Hrun|]. rewrite Hpush. simpl.
        unfold closing. simpl. rewrite <- !app_assoc. simpl.
        destruct continuation; reflexivity.
      * simpl bind. destruct (IH st Hst) as (st' & Hrun & Hpush).
        exists st'. split; [exact Hrun|]. rewrite Hpush, C. reflexivity.
Qed.

(** X23: with continuation on, the result of [parse] is read off the
    grouping of the lines: the lines before the first tag line give
    nothing, and each tag line gives, with the lines up to the next tag
    line, the annotation of that group (or none, when its content is
    empty). *)
Theorem parse_by_blocks (config : AnnotationConfig) (comments : jsstring) :
  multiLineSupport config = true ->
  parse config comments
  = Ok (flat_map (fun b => blockAnnotation config (fst b) (snd b))
                 (blocks config (split LF comments))).
Proof.
  intros Hon. unfold parse, blocks.
  destruct (forOf_blocks config (split LF comments) Hon initialState
                         wellFormed_initialState) as (st & -> & Hpush).
  simpl. exact Hpush.
Qed.

Lemma parse_by_blocks_witness :
  parse testConfig blockComment
  = Ok (flat_map (fun b => blockAnnotation testConfig (fst b) (snd b))
                 (blocks testConfig (split LF blockComment))).
Proof.
  apply (parse_by_blocks testConfig blockComment).
  reflexivity.
Defined.

Example blocks_of_blockComment :
  blocks testConfig (split LF blockComment)
  = [ (js " * @param a first", [js " *   second line"]);
      (js " * @returns", [js " */"]) ].
Proof. vm_compute. reflexivity. Qed.

(* ================================================================== *)
(** ** An annotation parser built without tags *)
(* ================================================================== *)

(** X24: the constructor of [AnnotationParser] has no default tags: a
    parser built from a configuration that leaves the tags out (or
    passes [undefined] or an empty list) returns no annotation, whatever
    the comment. *)
Theorem AnnotationParser_without_tags_finds_nothing
        (config : PartialConfig.t) (comments : jsstring) :
  (forall tags, PartialConfig.supportedAnnotations config = Present tags ->
                tags = []) ->
  parse (AnnotationParser.new config) comments = Ok [].
Proof.
  intros Hnone.
  destruct (parse_sound (AnnotationParser.new config) comments)
    as (anns & E & Hall).
  rewrite E. f_equal.
  apply (no_configuredTag_without_tags (AnnotationParser.new config)); [|exact Hall].
  unfold AnnotationParser.new. simpl.
  destruct (PartialConfig.supportedAnnotations config) as [| |tags];
    [reflexivity | reflexivity | apply Hnone; reflexivity].
Qed.

Lemma AnnotationParser_without_tags_finds_nothing_witness :
  parse (AnnotationParser.new
           {| PartialConfig.supportedAnnotations := Absent;
              PartialConfig.multiLineSupport := Absent;
              PartialConfig.encoding := Absent |})
        (js "/** @param a x */")
  = Ok [].
Proof.
  apply (AnnotationParser_without_tags_finds_nothing
           {| PartialConfig.supportedAnnotations := Absent;
              PartialConfig.multiLineSupport := Absent;
              PartialConfig.encoding := Absent |}
           (js "/** @param a x */")).
  intros tags H. discriminate H.
Defined.
